(** * xk6-working-memory: the shared TTL cache behind [k6/x/working-memory]

    A shallow embedding of [memory/memory.go] (type [Cache] with its methods
    [Init], [Set], [Get], [Flush]) together with the part of the
    [github.com/patrickmn/go-cache] store that those methods call, and of
    the k6 module around the one shared [Cache] ([New], [NewModuleInstance],
    [Exports] and the registration).

    Conventions.
    - Go's [int], [int64] and [time.Duration] are [Z]; every product or sum the
      code computes on them is written with its 64-bit wrap-around ([wrap64]).
    - Go's [interface{}] is the tagged union [any]; the type assertion
      [value.(string)] is the partial function [assert_string].
    - A method runs in the monad [M]: it reads and writes the [State] and either
      returns or panics.  Every method of [Cache] holds [c.mutex] from its first
      statement to its return, so no other method runs in between and one call
      is one step.
    - The clock is read where the code reads it.  [Get] reads it once; [Set]
      reads it twice, in the store's [Set] (memory.go:108) and in the read-back
      [Get] (memory.go:109), and the time that passes between the two readings
      is the argument [elapsed] of [Cache_Set].  Time also moves between calls
      ([time_Sleep]). *)

From Stdlib Require Import ZArith Lia.
From stdpp Require Import gmap strings list fin_maps.

Local Open Scope Z_scope.

(** ** Machine integers and time *)

(** The value of a 64-bit signed integer after an arithmetic operation whose
    mathematical result is [z]. *)
Definition wrap64 (z : Z) : Z := (z + 2 ^ 63) `mod` 2 ^ 64 - 2 ^ 63.

Definition int64 (z : Z) : Prop := - 2 ^ 63 <= z < 2 ^ 63.

Module time.

(** [time.Second]: one second as a [time.Duration], a count of nanoseconds. *)
Definition Second : Z := 1000000000.

(** [time.Duration(n) * time.Second] (memory.go:45, 46, 104). *)
Definition seconds (n : Z) : Z := wrap64 (n * Second).

(** [time.Now().UnixNano()] when [t] nanoseconds have passed since the
    epoch. *)
Definition UnixNano (t : Z) : Z := wrap64 t.

(** [time.Now().Add(d).UnixNano()]. *)
Definition Add_UnixNano (t d : Z) : Z := wrap64 (t + d).

End time.

(** ** Dynamic values *)

(** Go's [interface{}]: the nil interface, a string, or a value of another
    dynamic type (an integer stands for these). *)
Inductive any : Type :=
| any_nil
| any_string (s : string)
| any_int (n : Z).

(** The type assertion [x.(string)]; [None] is the run-time panic. *)
Definition assert_string (x : any) : option string :=
  match x with
  | any_string s => Some s
  | _ => None
  end.

(** [errors.New(msg)]. *)
Record error : Type := errors_New { Error : string }.

(** ** The store: package [cache] (github.com/patrickmn/go-cache) *)

Module gocache.

(** Modelled from the spec: the entry of the TTL store (type [Item] of the
    go-cache package imported at memory.go:19; the package's source is not
    under src/).  Spec, section 3: a value and [expiresAt], "absolute
    timestamp, or a sentinel meaning never expires"; the sentinel is 0. *)
Record Item : Type := { Object : any; Expiration : Z }.

(** Modelled from the spec: the constants [cache.NoExpiration] and
    [cache.DefaultExpiration] (memory.go:106 uses the second). *)
Definition NoExpiration : Z := -1.
Definition DefaultExpiration : Z := 0.

(** Modelled from the spec: the janitor, "a periodic process that scans the
    store" every [Interval]. *)
Record janitor : Type := { Interval : Z }.

(** Modelled from the spec: the store, "a mapping from key to Entry",
    [defaultTTL], and the janitor started for it (its [Interval] is the
    spec's [cleanupInterval]). *)
Record Cache : Type :=
  { defaultExpiration : Z;
    items : gmap string Item;
    janitor_of : option janitor }.

(** Modelled from the spec: the timer of the janitor, "a dedicated
    background task or timer that wakes on a fixed interval"; it is Go's
    [time.NewTicker], which panics ([None]) on a period that is not
    positive. *)
Definition time_NewTicker (d : Z) : option Z :=
  if 0 <? d then Some d else None.

(** Modelled from the spec: the store's constructor.  The spec leaves open
    whether a zero default means "never expire" or "expire immediately";
    the package's convention is the first: a zero default is stored as
    [NoExpiration]. *)
Definition newCache (de : Z) (m : gmap string Item) : Cache :=
  let de := if de =? 0 then -1 else de in
  {| defaultExpiration := de; items := m; janitor_of := None |}.

(** Modelled from the spec: "starts the janitor" for the store [c] with
    period [ci]. *)
Definition runJanitor (c : Cache) (ci : Z) : option Cache :=
  match time_NewTicker ci with
  | None => None
  | Some _ =>
      Some {| defaultExpiration := defaultExpiration c;
              items := items c;
              janitor_of := Some {| Interval := ci |} |}
  end.

(** Modelled from the spec: the constructor with its janitor; a period
    that is not positive disables the janitor. *)
Definition newCacheWithJanitor (de ci : Z) (m : gmap string Item)
  : option Cache :=
  let c := newCache de m in
  if 0 <? ci then runJanitor c ci else Some c.

(** Modelled from the spec: [cache.New(defaultExpiration, cleanupInterval)],
    "an empty store configured with the given durations; starts the
    janitor".  A zero default means entries never expire; the janitor is
    started only for a positive interval.  [None] is a panic. *)
Definition New (defaultExpiration cleanupInterval : Z) : option Cache :=
  newCacheWithJanitor defaultExpiration cleanupInterval ∅.

(** Modelled from the spec: [Cache.Set(k, x, d)] at clock [t], "inserts
    or overwrites the entry for key; if ttl is omitted, use defaultTTL; if
    defaultTTL itself signals never expire, the entry never expires".  An
    omitted ttl is [DefaultExpiration]; by the package's convention every
    duration that is not positive stores the never-expires sentinel. *)
Definition Set_ (k : string) (x : any) (d : Z) (t : Z) (c : Cache) : Cache :=
  let d := if d =? DefaultExpiration then defaultExpiration c else d in
  let e := if 0 <? d then time.Add_UnixNano t d else 0 in
  {| defaultExpiration := defaultExpiration c;
     items := <[k := {| Object := x; Expiration := e |}]> (items c);
     janitor_of := janitor_of c |}.

(** The duration [Set_] ends up using for the argument [d], and the
    [Expiration] it stores at clock [t]. *)
Definition effective_duration (c : Cache) (d : Z) : Z :=
  if d =? DefaultExpiration then defaultExpiration c else d.

Definition deadline (c : Cache) (d t : Z) : Z :=
  if 0 <? effective_duration c d then
    time.Add_UnixNano t (effective_duration c d)
  else 0.

(** The expiry test shared by lookup and sweep: the entry has a deadline
    and the clock reading [now] is past it. *)
Definition expired (now : Z) (item : Item) : bool :=
  (0 <? Expiration item) && (Expiration item <? now).

(** Modelled from the spec: [Cache.Get(k)] at clock [t], "returns the
    value and a found/not-found indicator; an entry whose deadline has
    passed is treated as not-found". *)
Definition Get (k : string) (t : Z) (c : Cache) : any * bool :=
  match items c !! k with
  | None => (any_nil, false)
  | Some item =>
      if expired (time.UnixNano t) item then (any_nil, false)
      else (Object item, true)
  end.

(** Modelled from the spec: [Cache.Flush()], "removes all entries". *)
Definition Flush (c : Cache) : Cache :=
  {| defaultExpiration := defaultExpiration c;
     items := ∅;
     janitor_of := janitor_of c |}.

(** Modelled from the spec: [Cache.DeleteExpired()] at clock [t], the
    janitor's sweep: "scan all entries and delete any whose deadline has
    passed as of the scan time". *)
Definition DeleteExpired (t : Z) (c : Cache) : Cache :=
  {| defaultExpiration := defaultExpiration c;
     items := filter (λ kv, expired (time.UnixNano t) kv.2 = false) (items c);
     janitor_of := janitor_of c |}.

End gocache.

(** ** The module: package [memory] (memory/memory.go) *)

Module memory.

Definition ImportPath : string := "k6/x/working-memory".

(** What a method of the shared instance runs against.
    - [clock]: nanoseconds since the epoch, read by [time.Now()].
    - [c_cache]: the field [cache *cache.Cache] of the one [Cache] that
      [New] creates ([globalCacheInstance], memory.go:27, 53); [None] is the
      nil pointer of the zero value [&Cache{}].
    - [discarded]: the stores that [c_cache] pointed to before an [Init]
      assigned a new one (memory.go:47) and that the runtime has not
      finalized yet.  A janitor holds its store and sweeps it until the
      store's finalizer stops it, so the janitors of these stores, if they
      have one, are still running. *)
Record State : Type :=
  { clock : Z;
    c_cache : option gocache.Cache;
    discarded : list gocache.Cache }.

(** [globalCacheInstance = &Cache{}] at clock [t]. *)
Definition new_Cache (t : Z) : State :=
  {| clock := t; c_cache := None; discarded := [] |}.

Inductive result (A : Type) : Type :=
| Returned (a : A) (s : State)
| Panicked (msg : string).
Arguments Returned {A} a s.
Arguments Panicked {A} msg.

Definition M (A : Type) : Type := State -> result A.

Definition ret {A} (a : A) : M A := fun s => Returned a s.

Definition bind {A B} (m : M A) (k : A -> M B) : M B :=
  fun s =>
    match m s with
    | Returned a s' => k a s'
    | Panicked msg => Panicked msg
    end.

#[local] Instance M_ret : MRet M := @ret.
#[local] Instance M_bind : MBind M := fun A B k m => bind m k.

Definition panic {A} (msg : string) : M A := fun _ => Panicked msg.

(** Reading the field [c.cache]. *)
Definition load_cache : M (option gocache.Cache) :=
  fun s => Returned (c_cache s) s.

(** The assignment [c.cache = p]; the store [c.cache] pointed to before is
    no longer reachable from the instance. *)
Definition store_cache (p : gocache.Cache) : M unit :=
  fun s =>
    Returned tt
      {| clock := clock s;
         c_cache := Some p;
         discarded := match c_cache s with
                      | Some old => old :: discarded s
                      | None => discarded s
                      end |}.

(** The state in which the store behind [c.cache] has become [p]. *)
Definition with_cache (s : State) (p : gocache.Cache) : State :=
  {| clock := clock s; c_cache := Some p; discarded := discarded s |}.

(** A method call [c.cache.f(...)] on the store behind the pointer: [f]
    gets the clock and the store and gives its results and the store as it
    leaves it.  On a nil [c.cache] the call dereferences nil. *)
Definition call_cache {A} (f : Z -> gocache.Cache -> A * gocache.Cache) : M A :=
  fun s =>
    match c_cache s with
    | None => Panicked "invalid memory address or nil pointer dereference"
    | Some p =>
        let '(a, p') := f (clock s) p in
        Returned a (with_cache s p')
    end.

Definition cache_Set (k : string) (x : any) (d : Z) : M unit :=
  call_cache (fun t p => (tt, gocache.Set_ k x d t p)).

Definition cache_Get (k : string) : M (any * bool) :=
  call_cache (fun t p => (gocache.Get k t p, p)).

Definition cache_Flush : M unit :=
  call_cache (fun _ p => (tt, gocache.Flush p)).

(** [cache.New(de, ci)]: a panic of the constructor is a panic of the
    caller. *)
Definition cache_New (de ci : Z) : M gocache.Cache :=
  match gocache.New de ci with
  | Some p => ret p
  | None => panic "non-positive interval for NewTicker"
  end.

Definition ErrNotInitialized : error :=
  errors_New "cache not initialized: please call init() first".

(** [func (c *Cache) Init(defaultExpiration, cleanupInterval int)]
    (memory.go:41).  Like the three methods below it runs between
    [c.mutex.Lock()] and the deferred [c.mutex.Unlock()]. *)
Definition Cache_Init (defaultExpiration cleanupInterval : Z) : M unit :=
  let expiration := time.seconds defaultExpiration in
  let cleanup := time.seconds cleanupInterval in
  p ← cache_New expiration cleanup;
  store_cache p.

(** Time passing inside a call, between two readings of the clock: it
    moves on by [d] nanoseconds, and never back. *)
Definition time_passes (d : Z) : M unit :=
  fun s =>
    Returned tt {| clock := clock s + Z.max 0 d; c_cache := c_cache s;
                   discarded := discarded s |}.

(** [func (c *Cache) Set(id, value string, expiration ...int) (bool, error)]
    (memory.go:95); the variadic [expiration] is the list of the extra
    arguments.  [c.cache.Set] (memory.go:108) computes the deadline from its
    own reading of the clock and [c.cache.Get] (memory.go:109) tests it
    against a later one: [elapsed] is the time between the two, which the
    caller does not choose. *)
Definition Cache_Set (id value : string) (expiration : list Z) (elapsed : Z)
  : M (bool * option error) :=
  c ← load_cache;
  match c with
  | None => ret (false, Some ErrNotInitialized)
  | Some _ =>
      let exp :=
        match expiration with
        | e :: _ => time.seconds e
        | [] => gocache.DefaultExpiration
        end in
      cache_Set id (any_string value) exp;;
      time_passes elapsed;;
      '(_, found) ← cache_Get id;
      ret (found, None)
  end.

(** The duration [exp] that [Cache_Set] passes on (memory.go:102-107). *)
Definition exp_of (expiration : list Z) : Z :=
  match expiration with
  | e :: _ => time.seconds e
  | [] => gocache.DefaultExpiration
  end.

(** [func (c *Cache) Get(id string) (interface{}, error)] (memory.go:119). *)
Definition Cache_Get (id : string) : M (any * option error) :=
  c ← load_cache;
  match c with
  | None => ret (any_nil, Some ErrNotInitialized)
  | Some _ =>
      '(value, found) ← cache_Get id;
      if (found : bool) then
        match assert_string value with
        | Some s => ret (any_string s, None)
        | None => panic "interface conversion: interface {} is not string"
        end
      else ret (any_nil, None)
  end.

(** [func (c *Cache) Flush() error] (memory.go:134). *)
Definition Cache_Flush : M (option error) :=
  c ← load_cache;
  match c with
  | None => ret (Some ErrNotInitialized)
  | Some _ =>
      cache_Flush;;
      ret None
  end.

(** *** The environment of the instance *)

(** [time.Sleep(d)] between two calls: the clock moves on by [d]; a
    non-positive [d] returns at once. *)
Definition time_Sleep (d : Z) : M unit :=
  fun s =>
    Returned tt {| clock := clock s + Z.max 0 d; c_cache := c_cache s;
                   discarded := discarded s |}.

(** Modelled from the spec: what a tick does to the store its janitor is
    bound to, "scan all entries and delete any whose deadline has passed as
    of the scan time"; a store created without a janitor is never swept. *)
Definition sweep (t : Z) (p : gocache.Cache) : gocache.Cache :=
  match gocache.janitor_of p with
  | Some _ => gocache.DeleteExpired t p
  | None => p
  end.

(** Modelled from the spec: a tick of the janitor of the live store.  The
    ticker fires every [Interval]; a tick is allowed at any clock here. *)
Definition janitor_tick : M unit :=
  fun s =>
    Returned tt {| clock := clock s; c_cache := sweep (clock s) <$> c_cache s;
                   discarded := discarded s |}.

(** Modelled from the spec: a tick of the janitor of the [i]-th discarded
    store.  A janitor is bound to the store it was started for and to no
    other. *)
Definition stale_janitor_tick (i : nat) : M unit :=
  fun s =>
    Returned tt {| clock := clock s; c_cache := c_cache s;
                   discarded := alter (sweep (clock s)) i (discarded s) |}.

(** Modelled from the spec: the runtime collects the discarded stores, and
    the finalizer of each stops its janitor ("the janitor's lifetime is tied
    to the store's"). *)
Definition finalize : M unit :=
  fun s =>
    Returned tt {| clock := clock s; c_cache := c_cache s; discarded := [] |}.

(** The janitors running in a state: one for each store, live or
    discarded, that was created with a positive cleanup interval. *)
Definition running_janitors (s : State) : list gocache.janitor :=
  omap gocache.janitor_of (option_list (c_cache s) ++ discarded s).

(** *** Sequences of calls *)

(** What a script and its environment can do to the instance: the four
    exported functions (memory.go:67-70) and the events above.  A [set]
    comes with the time that passes between its two clock readings. *)
Inductive call : Type :=
| init (defaultExpiration cleanupInterval : Z)
| set (id value : string) (expiration : list Z) (elapsed : Z)
| get (id : string)
| flush
| sleep (d : Z)
| tick
| stale_tick (i : nat)
| gc.

Definition exec (c : call) : M unit :=
  match c with
  | init de ci => Cache_Init de ci
  | set id value expiration elapsed =>
      Cache_Set id value expiration elapsed;; ret tt
  | get id => Cache_Get id;; ret tt
  | flush => Cache_Flush;; ret tt
  | sleep d => time_Sleep d
  | tick => janitor_tick
  | stale_tick i => stale_janitor_tick i
  | gc => finalize
  end.

Fixpoint run (l : list call) : M unit :=
  match l with
  | [] => ret tt
  | c :: l => exec c;; run l
  end.

(** *** States the instance can be in *)

(** [s] is a state of the instance some time after its creation. *)
Definition reachable (s : State) : Prop :=
  exists (t : Z) (l : list call), run l (new_Cache t) = Returned tt s.

(** The state [l] leaves an instance created at clock [t] in. *)
Definition state_after (t : Z) (l : list call) : State :=
  match run l (new_Cache t) with
  | Returned _ s => s
  | Panicked _ => new_Cache t
  end.

Definition is_init (c : call) : bool :=
  match c with
  | init _ _ => true
  | _ => false
  end.

(** What the types of the Go program guarantee about a store: its
    default expiration is a [time.Duration] and every [Object] in it was
    put there by [Cache.Set], from a [string]. *)
Record well_typed (p : gocache.Cache) : Prop :=
  { wt_default : int64 (gocache.defaultExpiration p);
    wt_objects : forall k item,
      gocache.items p !! k = Some item ->
      exists v, gocache.Object item = any_string v }.

Definition invariant (s : State) : Prop :=
  forall p, c_cache s = Some p -> well_typed p.

End memory.

(** ** The k6 module around the instance (memory/memory.go:25-85) *)

Module k6.

(** The package-level variables and the [Cache] objects of one k6 process.
    - [once_done]: the flag of [once sync.Once] (memory.go:28).
    - [globalCacheInstance]: the pointer of memory.go:27, an address into
      [heap]; [None] is nil.
    - [heap]: the [Cache] objects allocated so far, each given by its field
      [cache] ([None] for a nil field).
    - [now] and [garbage]: the clock and the discarded stores, as [clock]
      and [discarded] of [memory.State]. *)
Record Process : Type :=
  { once_done : bool;
    globalCacheInstance : option nat;
    heap : list (option gocache.Cache);
    now : Z;
    garbage : list gocache.Cache }.

(** The process before the package is used, at clock [t]. *)
Definition start (t : Z) : Process :=
  {| once_done := false; globalCacheInstance := None; heap := [];
     now := t; garbage := [] |}.

Inductive outcome (A : Type) : Type :=
| Done (a : A) (w : Process)
| Panic (msg : string).
Arguments Done {A} a w.
Arguments Panic {A} msg.

Definition W (A : Type) : Type := Process -> outcome A.

Definition ret {A} (a : A) : W A := fun w => Done a w.

Definition bind {A B} (m : W A) (k : A -> W B) : W B :=
  fun w =>
    match m w with
    | Done a w' => k a w'
    | Panic msg => Panic msg
    end.

#[local] Instance W_ret : MRet W := @ret.
#[local] Instance W_bind : MBind W := fun A B k m => bind m k.

(** [once.Do(f)]: [f] runs on the first call only. *)
Definition once_Do (f : W unit) : W unit :=
  fun w =>
    if once_done w then Done tt w
    else
      match f w with
      | Done _ w' =>
          Done tt {| once_done := true;
                     globalCacheInstance := globalCacheInstance w';
                     heap := heap w'; now := now w'; garbage := garbage w' |}
      | Panic msg => Panic msg
      end.

(** [&Cache{}]: a new [Cache] with a nil [cache] field; its address. *)
Definition alloc_Cache : W nat :=
  fun w =>
    Done (length (heap w))
      {| once_done := once_done w;
         globalCacheInstance := globalCacheInstance w;
         heap := heap w ++ [None]; now := now w; garbage := garbage w |}.

(** The assignment [globalCacheInstance = p]. *)
Definition store_global (p : nat) : W unit :=
  fun w =>
    Done tt {| once_done := once_done w; globalCacheInstance := Some p;
               heap := heap w; now := now w; garbage := garbage w |}.

(** [type rootModule struct{}] (memory.go:59). *)
Inductive rootModule : Type := new_rootModule.

(** [func New() modules.Module] (memory.go:51). *)
Definition New : W rootModule :=
  once_Do (p ← alloc_Cache; store_global p);;
  ret new_rootModule.

(** What a method sees of the [Cache] at address [a], and the process after
    the method has left that [Cache] and its surroundings as [s]. *)
Definition view (w : Process) (a : nat) : option memory.State :=
  c ← heap w !! a;
  Some {| memory.clock := now w; memory.c_cache := c;
          memory.discarded := garbage w |}.

Definition commit (w : Process) (a : nat) (s : memory.State) : Process :=
  {| once_done := once_done w;
     globalCacheInstance := globalCacheInstance w;
     heap := <[a := memory.c_cache s]> (heap w);
     now := memory.clock s;
     garbage := memory.discarded s |}.

(** A method [m] of [Cache] called on the receiver [c]; its first statement,
    [c.mutex.Lock()], dereferences [c]. *)
Definition on_Cache {A} (c : option nat) (m : memory.M A) : W A :=
  fun w =>
    match c with
    | None => Panic "invalid memory address or nil pointer dereference"
    | Some a =>
        match view w a with
        | None => Panic "invalid memory address or nil pointer dereference"
        | Some s =>
            match m s with
            | memory.Returned r s' => Done r (commit w a s')
            | memory.Panicked msg => Panic msg
            end
        end
    end.






(** [func init()] of the registering package: [modules.Register(
    memory.ImportPath, memory.New())].  What k6 keeps is the path and the
    root module. *)
Definition register : W (string * rootModule) :=
  r ← New;
  ret (memory.ImportPath, r).

(** What happens in a process: a call of [New], or a call or event on the
    [Cache] that [globalCacheInstance] points to. *)
Inductive op : Type :=
| op_New
| op_call (c : memory.call).

Definition step (o : op) : W unit :=
  match o with
  | op_New => New;; ret tt
  | op_call c => g ← (fun w => Done (globalCacheInstance w) w);
                 on_Cache g (memory.exec c)
  end.

Fixpoint steps (l : list op) : W unit :=
  match l with
  | [] => ret tt
  | o :: l => step o;; steps l
  end.

(** The process from the first [New] on: [once] is done, there is one
    [Cache], [globalCacheInstance] points to it, and its store, if it has
    one, is well typed. *)
Record singleton (w : Process) : Prop :=
  { sg_once : once_done w = true;
    sg_global : globalCacheInstance w = Some 0%nat;
    sg_heap : exists c, heap w = [c]
                        /\ forall p, c = Some p -> memory.well_typed p }.

End k6.

(** ** Observations *)

(** What a call returned, if it returned. *)
Definition returned {A} (r : memory.result A) : option A :=
  match r with
  | memory.Returned a _ => Some a
  | memory.Panicked _ => None
  end.

(** * Properties *)

(** ** 64-bit arithmetic *)

Lemma wrap64_int64 (z : Z) : int64 (wrap64 z).
Proof.
  unfold int64, wrap64.
  pose proof (Z.mod_pos_bound (z + 2 ^ 63) (2 ^ 64) eq_refl). lia.
Qed.

(** A deadline computed from a positive duration is not yet passed at the
    reading it was computed from: either the sum fits and is later, or it
    wraps around to a negative number, which the expiry test never takes for
    a deadline. *)
Lemma deadline_ahead (t d : Z) :
  int64 d -> 0 < d ->
  ~ (0 < time.Add_UnixNano t d < time.UnixNano t).
Proof.
  unfold int64, time.Add_UnixNano, time.UnixNano, wrap64.
  change (2 ^ 63) with 9223372036854775808.
  change (2 ^ 64) with 18446744073709551616.
  intros Hd Hpos. Z.div_mod_to_equations. lia.
Qed.

Lemma time_seconds_int64 (n : Z) : int64 (time.seconds n).
Proof. apply wrap64_int64. Qed.

(** ** The store *)

Section store.
Import gocache.
Implicit Types (p : Cache) (k : string) (x : any) (t d : Z).

Lemma items_Set_ k x d t p :
  items (Set_ k x d t p)
  = <[k := {| Object := x; Expiration := deadline p d t |}]> (items p).
Proof. reflexivity. Qed.

Lemma lookup_Set_ k x d t p :
  items (Set_ k x d t p) !! k
  = Some {| Object := x; Expiration := deadline p d t |}.
Proof. rewrite items_Set_. apply lookup_insert_eq. Qed.

Lemma effective_duration_int64 p d :
  int64 d -> int64 (defaultExpiration p) -> int64 (effective_duration p d).
Proof. unfold effective_duration. destruct (d =? DefaultExpiration); auto. Qed.

Lemma deadline_not_expired p d t x :
  int64 d -> int64 (defaultExpiration p) ->
  expired (time.UnixNano t) {| Object := x; Expiration := deadline p d t |}
  = false.
Proof.
  intros Hd Hp. unfold expired, deadline. cbn [Expiration].
  pose proof (effective_duration_int64 p d Hd Hp) as He.
  destruct (Z.ltb_spec 0 (effective_duration p d)) as [Hpos|Hle];
    [|reflexivity].
  pose proof (deadline_ahead t _ He Hpos) as Hahead.
  apply andb_false_iff.
  destruct (Z.ltb_spec 0 (time.Add_UnixNano t (effective_duration p d)));
    [right | left; reflexivity].
  apply Z.ltb_ge. lia.
Qed.

Lemma Get_Set_ k x d t p :
  int64 d -> int64 (defaultExpiration p) ->
  Get k t (Set_ k x d t p) = (x, true).
Proof.
  intros Hd Hp. unfold Get. rewrite lookup_Set_.
  rewrite deadline_not_expired by assumption. reflexivity.
Qed.

Lemma Set__overwrites k x y d d' t t' p :
  Set_ k y d' t' (Set_ k x d t p) = Set_ k y d' t' p.
Proof.
  unfold Set_. cbn [defaultExpiration items janitor_of].
  rewrite insert_insert_eq. reflexivity.
Qed.

Lemma Get_Flush k t p : Get k t (Flush p) = (any_nil, false).
Proof. unfold Get, Flush. cbn [items]. rewrite lookup_empty. reflexivity. Qed.

Lemma Get_absent k t p : items p !! k = None -> Get k t p = (any_nil, false).
Proof. unfold Get. intros ->. reflexivity. Qed.

Lemma Get_expired k t p item :
  items p !! k = Some item -> expired (time.UnixNano t) item = true ->
  Get k t p = (any_nil, false).
Proof. unfold Get. intros -> ->. reflexivity. Qed.

Lemma New_returns de ci :
  exists p, New de ci = Some p
            /\ items p = ∅
            /\ defaultExpiration p = (if de =? 0 then -1 else de)
            /\ janitor_of p
               = (if 0 <? ci then Some {| Interval := ci |} else None).
Proof.
  unfold New, newCacheWithJanitor, runJanitor, time_NewTicker.
  destruct (0 <? ci); eexists; (split; [reflexivity|]); auto.
Qed.

(** A sweep removes exactly the entries that a lookup at the same reading
    would not return, so no lookup at that reading can tell. *)
Lemma Get_DeleteExpired k t p : Get k t (DeleteExpired t p) = Get k t p.
Proof.
  unfold Get, DeleteExpired. cbn [items].
  destruct (items p !! k) as [item|] eqn:Hk.
  - destruct (expired (time.UnixNano t) item) eqn:He.
    + rewrite map_lookup_filter_None_2; [reflexivity|].
      right. intros item' Hk'. cbn. congruence.
    + rewrite (map_lookup_filter_Some_2 _ _ _ item Hk He).
      rewrite He. reflexivity.
  - rewrite map_lookup_filter_None_2; [reflexivity|].
    left. assumption.
Qed.

Lemma lookup_DeleteExpired_Some k t p item :
  items (DeleteExpired t p) !! k = Some item -> items p !! k = Some item.
Proof.
  unfold DeleteExpired. cbn [items]. intros H.
  apply map_lookup_filter_Some in H. tauto.
Qed.

End store.

(** ** The methods of the instance, case by case *)

Section instance.
Import memory.
Implicit Types (s : State) (p : gocache.Cache) (id value : string).

Lemma with_cache_same s p : c_cache s = Some p -> with_cache s p = s.
Proof. destruct s as [t c ds]. cbn. intros ->. reflexivity. Qed.

Lemma exp_of_int64 expiration : int64 (exp_of expiration).
Proof.
  destruct expiration as [|e ?]; cbn.
  - unfold int64, gocache.DefaultExpiration. lia.
  - apply time_seconds_int64.
Qed.

Lemma Cache_Set_nil s id value expiration elapsed :
  c_cache s = None ->
  Cache_Set id value expiration elapsed s
  = Returned (false, Some ErrNotInitialized) s.
Proof.
  intros H. unfold Cache_Set, mbind, M_bind, bind, load_cache.
  rewrite H. reflexivity.
Qed.

Lemma Cache_Get_nil s id :
  c_cache s = None ->
  Cache_Get id s = Returned (any_nil, Some ErrNotInitialized) s.
Proof.
  intros H. unfold Cache_Get, mbind, M_bind, bind, load_cache.
  rewrite H. reflexivity.
Qed.

Lemma Cache_Flush_nil s :
  c_cache s = None -> Cache_Flush s = Returned (Some ErrNotInitialized) s.
Proof.
  intros H. unfold Cache_Flush, mbind, M_bind, bind, load_cache.
  rewrite H. reflexivity.
Qed.

(** On an initialized instance [Cache_Set] writes the entry at the first
    reading of the clock and reports what the read-back finds at the
    second. *)
Lemma Cache_Set_some s p id value expiration elapsed :
  c_cache s = Some p ->
  let p' := gocache.Set_ id (any_string value) (exp_of expiration) (clock s) p in
  Cache_Set id value expiration elapsed s
  = Returned ((gocache.Get id (clock s + Z.max 0 elapsed) p').2, None)
      {| clock := clock s + Z.max 0 elapsed; c_cache := Some p';
         discarded := discarded s |}.
Proof.
  intros H p'. destruct s as [t c ds]. cbn in H. subst c.
  unfold Cache_Set, mbind, M_bind, bind, load_cache, cache_Set, cache_Get,
    call_cache, time_passes.
  cbn. fold (exp_of expiration). cbn in p'. fold p'.
  destruct (gocache.Get id (t + Z.max 0 elapsed) p') as [x found]. reflexivity.
Qed.

(** The flag that [Cache_Set] returns: whether the entry it wrote is still
    unexpired at the second reading. *)
Lemma Cache_Set_found s p id value expiration elapsed :
  c_cache s = Some p ->
  Cache_Set id value expiration elapsed s
  = Returned
      (negb (gocache.expired (time.UnixNano (clock s + Z.max 0 elapsed))
               {| gocache.Object := any_string value;
                  gocache.Expiration :=
                    gocache.deadline p (exp_of expiration) (clock s) |}),
       None)
      {| clock := clock s + Z.max 0 elapsed;
         c_cache := Some (gocache.Set_ id (any_string value) (exp_of expiration)
                            (clock s) p);
         discarded := discarded s |}.
Proof.
  intros H. rewrite (Cache_Set_some s p id value expiration elapsed H). cbn zeta.
  unfold gocache.Get. rewrite lookup_Set_.
  destruct (gocache.expired _ _); reflexivity.
Qed.

Lemma Cache_Get_some s p id :
  c_cache s = Some p ->
  Cache_Get id s
  = match gocache.Get id (clock s) p with
    | (x, true) =>
        match assert_string x with
        | Some v => Returned (any_string v, None) s
        | None => Panicked "interface conversion: interface {} is not string"
        end
    | (_, false) => Returned (any_nil, None) s
    end.
Proof.
  intros H. destruct s as [t c ds]. cbn in H. subst c.
  unfold Cache_Get, mbind, M_bind, bind, load_cache, cache_Get, call_cache.
  cbn. destruct (gocache.Get id t p) as [x [|]]; [|reflexivity].
  destruct (assert_string x); reflexivity.
Qed.

Lemma Cache_Flush_some s p :
  c_cache s = Some p ->
  Cache_Flush s = Returned None (with_cache s (gocache.Flush p)).
Proof.
  intros H. destruct s as [t c ds]. cbn in H. subst c. reflexivity.
Qed.

Lemma Cache_Init_returns s de ci :
  exists p,
    gocache.New (time.seconds de) (time.seconds ci) = Some p
    /\ Cache_Init de ci s
       = Returned tt
           {| clock := clock s;
              c_cache := Some p;
              discarded := match c_cache s with
                           | Some old => old :: discarded s
                           | None => discarded s
                           end |}.
Proof.
  destruct (New_returns (time.seconds de) (time.seconds ci)) as (p & Hp & _).
  exists p. split; [assumption|].
  unfold Cache_Init, mbind, M_bind, bind, cache_New. rewrite Hp. reflexivity.
Qed.

End instance.

(** ** What every state of the instance satisfies *)

Section invariants.
Import memory.
Implicit Types (s : State) (p : gocache.Cache) (l : list call).

Lemma Get_found k t p x :
  gocache.Get k t p = (x, true) ->
  exists item, gocache.items p !! k = Some item /\ x = gocache.Object item.
Proof.
  unfold gocache.Get. destruct (gocache.items p !! k) as [item|]; [|discriminate].
  destruct (gocache.expired _ item); [discriminate|].
  intros [= <-]. eauto.
Qed.

Lemma well_typed_Set_ k v d t p :
  well_typed p -> well_typed (gocache.Set_ k (any_string v) d t p).
Proof.
  intros [Hd Ho]. split; [exact Hd|].
  intros k' item. rewrite items_Set_.
  destruct (decide (k = k')) as [->|Hne].
  - rewrite lookup_insert_eq. intros [= <-]. eauto.
  - rewrite lookup_insert_ne by assumption. apply Ho.
Qed.

Lemma well_typed_Flush p : well_typed p -> well_typed (gocache.Flush p).
Proof.
  intros [Hd _]. split; [exact Hd|].
  intros k item. cbn. rewrite lookup_empty. discriminate.
Qed.

Lemma well_typed_sweep t p : well_typed p -> well_typed (sweep t p).
Proof.
  intros [Hd Ho]. unfold sweep. destruct (gocache.janitor_of p); [|split; auto].
  split; [exact Hd|].
  intros k item H. apply lookup_DeleteExpired_Some in H. eauto.
Qed.

Lemma well_typed_New de ci p :
  int64 de -> gocache.New de ci = Some p -> well_typed p.
Proof.
  intros Hde Hnew.
  destruct (New_returns de ci) as (p' & Hp' & Hitems & Hdef & _).
  rewrite Hnew in Hp'. injection Hp' as <-. split.
  - rewrite Hdef. destruct (de =? 0); [unfold int64; lia | assumption].
  - intros k item. rewrite Hitems, lookup_empty. discriminate.
Qed.

Lemma invariant_with_cache s p : well_typed p -> invariant (with_cache s p).
Proof. intros Hp q [= <-]. exact Hp. Qed.

(** No call and no event panics, and each keeps the store well typed. *)
Lemma exec_returns c s :
  invariant s -> exists s', exec c s = Returned tt s' /\ invariant s'.
Proof.
  intros Hinv. destruct c as [de ci|id value expiration elapsed|id| |d| |i| ];
    cbn [exec].
  - destruct (Cache_Init_returns s de ci) as (p & Hnew & ->).
    eexists; split; [reflexivity|].
    intros q [= <-]. eapply well_typed_New; [apply time_seconds_int64|eassumption].
  - unfold mbind, M_bind, bind.
    destruct (c_cache s) as [p|] eqn:Hc.
    + rewrite (Cache_Set_some s p) by assumption. cbn zeta.
      eexists; split; [reflexivity|].
      intros q [= <-]. apply well_typed_Set_, Hinv, Hc.
    + rewrite Cache_Set_nil by assumption. eauto.
  - unfold mbind, M_bind, bind.
    destruct (c_cache s) as [p|] eqn:Hc.
    + rewrite (Cache_Get_some s p) by assumption.
      destruct (gocache.Get id (clock s) p) as [x [|]] eqn:Hget; [|eauto].
      apply Get_found in Hget as (item & Hitem & ->).
      destruct (wt_objects p (Hinv p Hc) id item Hitem) as [v ->].
      cbn. eauto.
    + rewrite Cache_Get_nil by assumption. eauto.
  - unfold mbind, M_bind, bind.
    destruct (c_cache s) as [p|] eqn:Hc.
    + rewrite (Cache_Flush_some s p) by assumption.
      eexists; split; [reflexivity|].
      apply invariant_with_cache, well_typed_Flush, Hinv, Hc.
    + rewrite Cache_Flush_nil by assumption. eauto.
  - eexists; split; [reflexivity|]. exact Hinv.
  - eexists; split; [reflexivity|].
    intros q. cbn. destruct (c_cache s) as [p|] eqn:Hc; [|discriminate].
    intros [= <-]. apply well_typed_sweep, Hinv, Hc.
  - eexists; split; [reflexivity|]. exact Hinv.
  - eexists; split; [reflexivity|]. exact Hinv.
Qed.

Lemma run_cons c l s :
  run (c :: l) s
  = match exec c s with
    | Returned _ s' => run l s'
    | Panicked msg => Panicked msg
    end.
Proof. reflexivity. Qed.

Lemma run_app l1 l2 s s1 :
  run l1 s = Returned tt s1 -> run (l1 ++ l2) s = run l2 s1.
Proof.
  revert s. induction l1 as [|c l1 IH]; intros s.
  - intros [= <-]. reflexivity.
  - rewrite <- app_comm_cons, !run_cons.
    destruct (exec c s) as [[] s'|msg]; [apply IH | discriminate].
Qed.

Lemma run_returns l s :
  invariant s -> exists s', run l s = Returned tt s' /\ invariant s'.
Proof.
  revert s. induction l as [|c l IH]; intros s Hinv.
  - exists s. split; [reflexivity | assumption].
  - destruct (exec_returns c s Hinv) as (s1 & Hexec & Hinv1).
    rewrite run_cons, Hexec. apply IH, Hinv1.
Qed.

Lemma invariant_new_Cache t : invariant (new_Cache t).
Proof. intros p. discriminate. Qed.

Lemma reachable_invariant s : reachable s -> invariant s.
Proof.
  intros (t & l & Hrun).
  destruct (run_returns l (new_Cache t) (invariant_new_Cache t)) as (s' & Hs' & Hinv).
  rewrite Hrun in Hs'. injection Hs' as <-. exact Hinv.
Qed.

Lemma reachable_run l s s' :
  reachable s -> run l s = Returned tt s' -> reachable s'.
Proof.
  intros (t & l0 & Hrun) Hl. exists t, (l0 ++ l).
  rewrite (run_app l0 l _ s Hrun). exact Hl.
Qed.

Lemma reachable_returns l t :
  exists s, run l (new_Cache t) = Returned tt s /\ reachable s /\ invariant s.
Proof.
  destruct (run_returns l (new_Cache t) (invariant_new_Cache t))
    as (s & Hs & Hinv).
  exists s. split; [exact Hs|]. split; [|exact Hinv]. exists t, l. exact Hs.
Qed.

(** With every stored value a string, the assertion in [Cache_Get] holds. *)
Lemma Cache_Get_returns s id :
  invariant s ->
  exists x, Cache_Get id s = Returned (x, None) s \/
            Cache_Get id s = Returned (x, Some ErrNotInitialized) s.
Proof.
  intros Hinv. destruct (c_cache s) as [p|] eqn:Hc.
  - rewrite (Cache_Get_some s p) by assumption.
    destruct (gocache.Get id (clock s) p) as [x [|]] eqn:Hget; [|eauto].
    apply Get_found in Hget as (item & Hitem & ->).
    destruct (wt_objects p (Hinv p Hc) id item Hitem) as [v ->].
    cbn. eauto.
  - rewrite Cache_Get_nil by assumption. eauto.
Qed.

(** Only [init] assigns [c.cache]. *)
Lemma exec_keeps_nil c s :
  is_init c = false -> c_cache s = None ->
  exists s', exec c s = Returned tt s' /\ c_cache s' = None.
Proof.
  intros Hc Hnil. destruct c; try discriminate Hc; cbn [exec];
    unfold mbind, M_bind, bind.
  - rewrite Cache_Set_nil by assumption. eauto.
  - rewrite Cache_Get_nil by assumption. eauto.
  - rewrite Cache_Flush_nil by assumption. eauto.
  - eexists; split; [reflexivity | assumption].
  - eexists; split; [reflexivity|]. cbn. rewrite Hnil. reflexivity.
  - eexists; split; [reflexivity | assumption].
  - eexists; split; [reflexivity | assumption].
Qed.

Lemma run_keeps_nil l s :
  existsb is_init l = false -> c_cache s = None ->
  exists s', run l s = Returned tt s' /\ c_cache s' = None.
Proof.
  revert s. induction l as [|c l IH]; intros s Hl Hnil.
  - exists s. split; [reflexivity | assumption].
  - cbn in Hl. apply orb_false_iff in Hl as [Hc Hl].
    destruct (exec_keeps_nil c s Hc Hnil) as (s1 & Hexec & Hnil1).
    rewrite run_cons, Hexec. apply IH; assumption.
Qed.

End invariants.

(** ** The tests of memory/memory_test.go, run on the model *)

Section tests.
Import memory.

Example TestCacheInit : is_Some (c_cache (state_after 0 [init 5 10])).
Proof. eexists. reflexivity. Qed.

Example TestCacheSetAndGet :
  exists s,
    Cache_Set "testKey" "testValue" [] 1000 (state_after 0 [init 5 10])
    = Returned (true, None) s
    /\ Cache_Get "testKey" s = Returned (any_string "testValue", None) s.
Proof.
  eexists. split.
  - vm_compute. reflexivity.
  - vm_compute. reflexivity.
Qed.

Example TestCacheExpiration :
  let s := state_after 0 [init 1 1; set "expiringKey" "expiringValue" [1] 1000;
                          sleep (2 * time.Second)] in
  Cache_Get "expiringKey" s = Returned (any_nil, None) s.
Proof. vm_compute. reflexivity. Qed.

Example TestCacheFlush :
  let s := state_after 0 [init 5 10; set "key1" "value1" [] 1000;
                          set "key2" "value2" [] 1000; flush] in
  Cache_Get "key1" s = Returned (any_nil, None) s
  /\ Cache_Get "key2" s = Returned (any_nil, None) s.
Proof. split; vm_compute; reflexivity. Qed.

End tests.

(** ** Deadlines *)

Section ttl.
Import memory.
Implicit Types (s : State) (p : gocache.Cache) (k v : string).

Lemma wrap64_small (z : Z) : int64 z -> wrap64 z = z.
Proof.
  unfold int64, wrap64. intros Hz.
  rewrite Z.mod_small by lia. lia.
Qed.

(** What [set], a delay and [get] of the same key give: the flag of [set]
    and the value of [get] are decided by the expiry test of the entry
    written, at the reading of the read-back and at that of the [get]. *)
Lemma Cache_Get_after_Set s p k v expiration elapsed d :
  c_cache s = Some p ->
  let item := {| gocache.Object := any_string v;
                 gocache.Expiration :=
                   gocache.deadline p (exp_of expiration) (clock s) |} in
  let s1 := {| clock := clock s + Z.max 0 elapsed;
               c_cache := Some (gocache.Set_ k (any_string v)
                                  (exp_of expiration) (clock s) p);
               discarded := discarded s |} in
  let s2 := {| clock := clock s1 + Z.max 0 d; c_cache := c_cache s1;
               discarded := discarded s1 |} in
  Cache_Set k v expiration elapsed s
  = Returned (negb (gocache.expired
                      (time.UnixNano (clock s + Z.max 0 elapsed)) item), None) s1
  /\ time_Sleep d s1 = Returned tt s2
  /\ Cache_Get k s2
     = Returned (if gocache.expired
                      (time.UnixNano (clock s + Z.max 0 elapsed + Z.max 0 d)) item
                 then any_nil else any_string v, None) s2.
Proof.
  intros Hp item s1 s2. split; [|split; [reflexivity|]].
  - apply (Cache_Set_found s p k v expiration elapsed Hp).
  - erewrite Cache_Get_some by reflexivity.
    unfold gocache.Get. cbn [clock s2 s1]. rewrite lookup_Set_. fold item.
    destruct (gocache.expired _ item); reflexivity.
Qed.

(** With a positive duration and a clock that stays within 64 bits, the
    entry is expired exactly when more than the duration has passed. *)
Lemma expired_iff_elapsed (t ttl e : Z) x :
  0 < ttl -> 0 <= t -> t + ttl < 2 ^ 63 -> 0 <= e -> t + e < 2 ^ 63 ->
  gocache.expired (time.UnixNano (t + e))
    {| gocache.Object := x; gocache.Expiration := time.Add_UnixNano t ttl |}
  = (ttl <? e).
Proof.
  intros Httl Ht Hsum He Hte.
  unfold gocache.expired, time.UnixNano, time.Add_UnixNano. cbn [gocache.Expiration].
  rewrite !wrap64_small by (unfold int64; lia).
  destruct (Z.ltb_spec 0 (t + ttl)); [|lia].
  destruct (Z.ltb_spec (t + ttl) (t + e)), (Z.ltb_spec ttl e); try reflexivity; lia.
Qed.

Lemma negb_ltb (a b : Z) : negb (a <? b) = (b <=? a).
Proof. destruct (Z.ltb_spec a b), (Z.leb_spec b a); try reflexivity; lia. Qed.

Lemma ttl_boundary s p k v expiration elapsed d :
  c_cache s = Some p ->
  0 < gocache.effective_duration p (exp_of expiration) ->
  0 <= clock s ->
  clock s + gocache.effective_duration p (exp_of expiration) < 2 ^ 63 ->
  0 <= elapsed -> 0 <= d -> clock s + elapsed + d < 2 ^ 63 ->
  exists s1 s2,
    Cache_Set k v expiration elapsed s
    = Returned (elapsed <=? gocache.effective_duration p (exp_of expiration),
                None) s1
    /\ time_Sleep d s1 = Returned tt s2
    /\ Cache_Get k s2
       = Returned (if elapsed + d
                      <=? gocache.effective_duration p (exp_of expiration)
                   then any_string v else any_nil, None) s2.
Proof.
  intros Hp Httl Ht Hsum He Hd Htd.
  destruct (Cache_Get_after_Set s p k v expiration elapsed d Hp)
    as (Hset & Hsleep & Hget).
  do 2 eexists. split; [|split; [exact Hsleep|]].
  - rewrite Hset. unfold gocache.deadline.
    destruct (Z.ltb_spec 0 (gocache.effective_duration p (exp_of expiration))); [|lia].
    rewrite Z.max_r by lia. rewrite expired_iff_elapsed by lia.
    rewrite negb_ltb. reflexivity.
  - rewrite Hget. unfold gocache.deadline.
    destruct (Z.ltb_spec 0 (gocache.effective_duration p (exp_of expiration))); [|lia].
    rewrite !Z.max_r by lia. rewrite <- Z.add_assoc.
    rewrite expired_iff_elapsed by lia.
    rewrite <- negb_ltb.
    destruct (gocache.effective_duration p (exp_of expiration) <? elapsed + d);
      reflexivity.
Qed.

Lemma deadline_none p expiration t :
  gocache.effective_duration p (exp_of expiration) <= 0 ->
  gocache.deadline p (exp_of expiration) t = 0.
Proof.
  intros H. unfold gocache.deadline.
  destruct (Z.ltb_spec 0 (gocache.effective_duration p (exp_of expiration)));
    [lia | reflexivity].
Qed.

Lemma no_deadline s p k v expiration elapsed d :
  c_cache s = Some p ->
  gocache.effective_duration p (exp_of expiration) <= 0 ->
  exists s1 s2,
    Cache_Set k v expiration elapsed s = Returned (true, None) s1
    /\ time_Sleep d s1 = Returned tt s2
    /\ Cache_Get k s2 = Returned (any_string v, None) s2.
Proof.
  intros Hp Httl.
  destruct (Cache_Get_after_Set s p k v expiration elapsed d Hp)
    as (Hset & Hsleep & Hget).
  rewrite (deadline_none p expiration (clock s) Httl) in Hset, Hget.
  do 2 eexists. split; [exact Hset|]. split; [exact Hsleep | exact Hget].
Qed.

(** At the reading it was written at, an entry is not expired. *)
Lemma written_entry_live s p v expiration :
  int64 (gocache.defaultExpiration p) ->
  gocache.expired (time.UnixNano (clock s))
    {| gocache.Object := any_string v;
       gocache.Expiration := gocache.deadline p (exp_of expiration) (clock s) |}
  = false.
Proof. intros Hd. apply deadline_not_expired; [apply exp_of_int64 | exact Hd]. Qed.

Lemma effective_explicit p n :
  time.seconds n <> 0 ->
  gocache.effective_duration p (exp_of [n]) = time.seconds n.
Proof.
  intros Hn. unfold gocache.effective_duration, gocache.DefaultExpiration. cbn [exp_of].
  destruct (Z.eqb_spec (time.seconds n) 0); [contradiction | reflexivity].
Qed.

Lemma effective_default p :
  gocache.effective_duration p (exp_of []) = gocache.defaultExpiration p.
Proof. reflexivity. Qed.

End ttl.

(** * The properties of the specification *)

Section properties.
Import memory.
Implicit Types (s : State) (p : gocache.Cache) (k v : string).

(** C1. On an instance on which [init] has never been called, each of
    [set], [get] and [flush] returns the error "cache not initialized:
    please call init() first" and no value ([false] from [set], the nil
    interface from [get]), and leaves the state exactly as it was. *)
Theorem uninitialized_access_fails (t : Z) (l : list call) :
  existsb is_init l = false ->
  exists s,
    run l (new_Cache t) = Returned tt s
    /\ c_cache s = None
    /\ (forall id value expiration elapsed,
           Cache_Set id value expiration elapsed s
           = Returned (false, Some ErrNotInitialized) s)
    /\ (forall id, Cache_Get id s = Returned (any_nil, Some ErrNotInitialized) s)
    /\ Cache_Flush s = Returned (Some ErrNotInitialized) s.
Proof.
  intros Hl.
  destruct (run_keeps_nil l (new_Cache t) Hl eq_refl) as (s & Hrun & Hnil).
  exists s. repeat split; [assumption | assumption | | | ].
  - intros. apply Cache_Set_nil, Hnil.
  - intros. apply Cache_Get_nil, Hnil.
  - apply Cache_Flush_nil, Hnil.
Qed.

Lemma uninitialized_access_fails_witness :
  existsb is_init [set "k" "v" [30] 1000; get "k"; flush; sleep 5] = false
  /\ exists s,
       run [set "k" "v" [30] 1000; get "k"; flush; sleep 5] (new_Cache 0)
       = Returned tt s
       /\ c_cache s = None
       /\ (forall id value expiration elapsed,
              Cache_Set id value expiration elapsed s
              = Returned (false, Some ErrNotInitialized) s)
       /\ (forall id,
              Cache_Get id s = Returned (any_nil, Some ErrNotInitialized) s)
       /\ Cache_Flush s = Returned (Some ErrNotInitialized) s.
Proof.
  split; [reflexivity|].
  apply (uninitialized_access_fails 0
           [set "k" "v" [30] 1000; get "k"; flush; sleep 5]).
  reflexivity.
Defined.

(** C2. On an initialized instance, after [set(k, v)], with any expiration
    argument and however long the call takes, a [get(k)] made before the
    deadline of the entry just written has passed returns the string [v]
    and no error.  [set] itself returns no error, and when the [get]
    follows at the reading of the clock that the read-back of [set] was
    taken at, [set] has returned [true]. *)
Theorem set_get_round_trip s p k v (expiration : list Z) (elapsed d : Z) :
  c_cache s = Some p ->
  gocache.expired (time.UnixNano (clock s + Z.max 0 elapsed + Z.max 0 d))
    {| gocache.Object := any_string v;
       gocache.Expiration := gocache.deadline p (exp_of expiration) (clock s) |}
  = false ->
  exists found s1 s2,
    Cache_Set k v expiration elapsed s = Returned (found, None) s1
    /\ time_Sleep d s1 = Returned tt s2
    /\ Cache_Get k s2 = Returned (any_string v, None) s2
    /\ (Z.max 0 d = 0 -> found = true).
Proof.
  intros Hp Hlive.
  destruct (Cache_Get_after_Set s p k v expiration elapsed d Hp)
    as (Hset & Hsleep & Hget).
  do 3 eexists. split; [exact Hset|]. split; [exact Hsleep|]. split.
  - rewrite Hget, Hlive. reflexivity.
  - intros Hd. rewrite Hd, Z.add_0_r in Hlive. rewrite Hlive. reflexivity.
Qed.

Lemma set_get_round_trip_witness :
  let s := state_after 0 [init 60 120] in
  let p := {| gocache.defaultExpiration := 60000000000;
              gocache.items := ∅;
              gocache.janitor_of := Some {| gocache.Interval := 120000000000 |} |} in
  c_cache s = Some p
  /\ gocache.expired
       (time.UnixNano (clock s + Z.max 0 1000 + Z.max 0 29000000000))
       {| gocache.Object := any_string "body";
          gocache.Expiration := gocache.deadline p (exp_of [30]) (clock s) |}
     = false
  /\ exists found s1 s2,
       Cache_Set "url" "body" [30] 1000 s = Returned (found, None) s1
       /\ time_Sleep 29000000000 s1 = Returned tt s2
       /\ Cache_Get "url" s2 = Returned (any_string "body", None) s2.
Proof.
  intros s p.
  assert (Hp : c_cache s = Some p) by reflexivity.
  assert (Hlive : gocache.expired
                    (time.UnixNano (clock s + Z.max 0 1000 + Z.max 0 29000000000))
                    {| gocache.Object := any_string "body";
                       gocache.Expiration :=
                         gocache.deadline p (exp_of [30]) (clock s) |}
                  = false) by (vm_compute; reflexivity).
  split; [exact Hp|]. split; [exact Hlive|].
  destruct (set_get_round_trip s p "url" "body" [30] 1000 29000000000 Hp Hlive)
    as (found & s1 & s2 & H1 & H2 & H3 & _).
  exists found, s1, s2. repeat split; assumption.
Defined.

(** C3. If the entry stored under [k] has a deadline and the clock is past
    it, [get(k)] returns the nil interface and no error; it does so before
    the janitor's sweep and after it. *)
Theorem expired_entry_not_returned s p k (item : gocache.Item) :
  c_cache s = Some p ->
  gocache.items p !! k = Some item ->
  0 < gocache.Expiration item < time.UnixNano (clock s) ->
  Cache_Get k s = Returned (any_nil, None) s
  /\ exists s',
       janitor_tick s = Returned tt s'
       /\ Cache_Get k s' = Returned (any_nil, None) s'.
Proof.
  intros Hp Hk [Hpos Hpast].
  assert (Hexp : gocache.expired (time.UnixNano (clock s)) item = true).
  { unfold gocache.expired. apply andb_true_iff.
    split; apply Z.ltb_lt; assumption. }
  assert (Hget : gocache.Get k (clock s) p = (any_nil, false))
    by (eapply Get_expired; eassumption).
  split.
  - rewrite (Cache_Get_some s p k Hp), Hget. reflexivity.
  - eexists. split; [reflexivity|].
    rewrite (Cache_Get_some _ (sweep (clock s) p) k) by (cbn; rewrite Hp; reflexivity).
    cbn [clock]. unfold sweep at 1.
    destruct (gocache.janitor_of p);
      [rewrite Get_DeleteExpired|]; rewrite Hget; reflexivity.
Qed.

Lemma expired_entry_not_returned_witness :
  let s := state_after 0 [init 1 1; set "expiringKey" "expiringValue" [1] 0;
                          sleep 2000000000] in
  let item := {| gocache.Object := any_string "expiringValue";
                 gocache.Expiration := 1000000000 |} in
  let p := {| gocache.defaultExpiration := 1000000000;
              gocache.items := {[ "expiringKey" := item ]};
              gocache.janitor_of := Some {| gocache.Interval := 1000000000 |} |} in
  c_cache s = Some p
  /\ gocache.items p !! "expiringKey" = Some item
  /\ 0 < gocache.Expiration item < time.UnixNano (clock s)
  /\ Cache_Get "expiringKey" s = Returned (any_nil, None) s.
Proof.
  intros s item p.
  assert (Hp : c_cache s = Some p) by reflexivity.
  assert (Hk : gocache.items p !! "expiringKey" = Some item) by reflexivity.
  assert (Ht : 0 < gocache.Expiration item < time.UnixNano (clock s))
    by (vm_compute; split; reflexivity).
  split; [exact Hp|]. split; [exact Hk|]. split; [exact Ht|].
  exact (proj1 (expired_entry_not_returned s p "expiringKey" item Hp Hk Ht)).
Defined.

(** C4. On an initialized instance, [set(k, v1)], then (any time later)
    [set(k, v2)], then (any time later) [get(k)], whatever the expiration
    arguments and however long the calls take.  The second [set] leaves one
    entry for [k], holding [v2] and the deadline computed at the second
    call: the state is the one the second [set] alone would have left, had
    the time of the first passed without it.  The [get] returns no error and
    never [v1]: it returns [v2], or the nil interface once the deadline of
    the second entry has passed. *)
Theorem set_overwrites s p k v1 v2 (e1 e2 : list Z) (g1 g2 d d' : Z) :
  c_cache s = Some p ->
  exists f1 f2 s1 s1' s2 p2 s3 r,
    Cache_Set k v1 e1 g1 s = Returned (f1, None) s1
    /\ time_Sleep d s1 = Returned tt s1'
    /\ Cache_Set k v2 e2 g2 s1' = Returned (f2, None) s2
    /\ c_cache s2 = Some p2
    /\ gocache.items p2 !! k
       = Some {| gocache.Object := any_string v2;
                 gocache.Expiration :=
                   gocache.deadline p (exp_of e2) (clock s1') |}
    /\ (exists s0 s0',
          time_Sleep g1 s = Returned tt s0
          /\ time_Sleep d s0 = Returned tt s0'
          /\ Cache_Set k v2 e2 g2 s0' = Returned (f2, None) s2)
    /\ time_Sleep d' s2 = Returned tt s3
    /\ Cache_Get k s3 = Returned (r, None) s3
    /\ (r = any_string v2 \/ r = any_nil)
    /\ (gocache.expired (time.UnixNano (clock s3))
          {| gocache.Object := any_string v2;
             gocache.Expiration :=
               gocache.deadline p (exp_of e2) (clock s1') |} = false ->
        r = any_string v2).
Proof.
  intros Hp.
  set (p1 := gocache.Set_ k (any_string v1) (exp_of e1) (clock s) p).
  set (t2 := clock s + Z.max 0 g1 + Z.max 0 d).
  set (s1 := {| clock := clock s + Z.max 0 g1; c_cache := Some p1;
                discarded := discarded s |}).
  set (s1' := {| clock := t2; c_cache := Some p1; discarded := discarded s |}).
  set (s0' := {| clock := t2; c_cache := c_cache s; discarded := discarded s |}).
  destruct (Cache_Get_after_Set s1' p1 k v2 e2 g2 d' eq_refl)
    as (Hset2 & Hsleep & Hget).
  cbn zeta in Hset2, Hsleep, Hget.
  pose proof (Cache_Set_found s0' p k v2 e2 g2 Hp) as Hset0.
  assert (Hsame : gocache.Set_ k (any_string v2) (exp_of e2) t2 p1
                  = gocache.Set_ k (any_string v2) (exp_of e2) t2 p)
    by apply Set__overwrites.
  cbn [clock s1' s0' discarded c_cache] in Hset2, Hsleep, Hget, Hset0.
  rewrite Hsame in Hset2, Hsleep, Hget.
  change (gocache.deadline p1 (exp_of e2) t2)
    with (gocache.deadline p (exp_of e2) t2) in Hset2, Hget.
  do 2 eexists. exists s1, s1'. do 4 eexists.
  split; [apply (Cache_Set_found s p k v1 e1 g1 Hp)|].
  split; [reflexivity|].
  split; [exact Hset2|].
  split; [reflexivity|].
  split; [apply lookup_Set_|].
  split.
  { exists {| clock := clock s + Z.max 0 g1; c_cache := c_cache s;
              discarded := discarded s |}, s0'.
    split; [reflexivity|]. split; [reflexivity|]. exact Hset0. }
  split; [exact Hsleep|].
  split; [exact Hget|].
  cbn [clock s1'].
  match goal with |- context [if ?b then _ else _] => destruct b end;
    (split; [auto | intros H; first [reflexivity | discriminate H]]).
Qed.

Lemma set_overwrites_witness :
  let s := state_after 0 [init 5 10] in
  let p := {| gocache.defaultExpiration := 5000000000;
              gocache.items := ∅;
              gocache.janitor_of := Some {| gocache.Interval := 10000000000 |} |} in
  c_cache s = Some p
  /\ exists f1 f2 s1 s1' s2 s3 r,
       Cache_Set "k" "v1" [] 1000 s = Returned (f1, None) s1
       /\ time_Sleep 3000000000 s1 = Returned tt s1'
       /\ Cache_Set "k" "v2" [1] 1000 s1' = Returned (f2, None) s2
       /\ time_Sleep 500 s2 = Returned tt s3
       /\ Cache_Get "k" s3 = Returned (r, None) s3
       /\ (r = any_string "v2" \/ r = any_nil).
Proof.
  intros s p.
  assert (Hp : c_cache s = Some p) by reflexivity.
  split; [exact Hp|].
  destruct (set_overwrites s p "k" "v1" "v2" [] [1] 1000 1000 3000000000 500 Hp)
    as (f1 & f2 & s1 & s1' & s2 & p2 & s3 & r
        & H1 & H2 & H3 & _ & _ & _ & H4 & H5 & H6 & _).
  exists f1, f2, s1, s1', s2, s3, r. repeat split; assumption.
Defined.

(** C5. After a [set(k, v)] that succeeded, another [init], with any
    durations, puts an empty store in place of the old one, which held [k]:
    [get] of [k], and of any key, returns the nil interface and no error. *)
Theorem reinit_resets_contents s s1 k v (expiration : list Z) (elapsed de ci : Z) :
  Cache_Set k v expiration elapsed s = Returned (true, None) s1 ->
  exists p1 s2 p,
    c_cache s1 = Some p1
    /\ is_Some (gocache.items p1 !! k)
    /\ Cache_Init de ci s1 = Returned tt s2
    /\ c_cache s2 = Some p
    /\ gocache.items p = ∅
    /\ forall k', Cache_Get k' s2 = Returned (any_nil, None) s2.
Proof.
  intros Hset. destruct (c_cache s) as [p0|] eqn:Hp0.
  - rewrite (Cache_Set_found s p0 k v expiration elapsed Hp0) in Hset.
    injection Hset as _ <-.
    set (s1 := {| clock := clock s + Z.max 0 elapsed;
                  c_cache := Some (gocache.Set_ k (any_string v)
                                     (exp_of expiration) (clock s) p0);
                  discarded := discarded s |}).
    destruct (Cache_Init_returns s1 de ci) as (p & Hnew & Hinit).
    destruct (New_returns (time.seconds de) (time.seconds ci))
      as (p' & Hp' & Hitems & _).
    rewrite Hnew in Hp'. injection Hp' as <-.
    eexists. eexists. exists p.
    split; [reflexivity|].
    split; [rewrite lookup_Set_; eexists; reflexivity|].
    split; [exact Hinit|].
    split; [reflexivity|]. split; [exact Hitems|].
    intros k'. erewrite Cache_Get_some by reflexivity.
    rewrite Get_absent by (rewrite Hitems; apply lookup_empty). reflexivity.
  - rewrite (Cache_Set_nil s k v expiration elapsed Hp0) in Hset. discriminate.
Qed.

Lemma reinit_resets_contents_witness :
  Cache_Set "k" "v" [] 1000 (state_after 0 [init 5 10])
  = Returned (true, None) (state_after 0 [init 5 10; set "k" "v" [] 1000])
  /\ exists s2,
       Cache_Init 0 0 (state_after 0 [init 5 10; set "k" "v" [] 1000])
       = Returned tt s2
       /\ Cache_Get "k" s2 = Returned (any_nil, None) s2.
Proof.
  assert (Hset : Cache_Set "k" "v" [] 1000 (state_after 0 [init 5 10])
                 = Returned (true, None)
                     (state_after 0 [init 5 10; set "k" "v" [] 1000]))
    by (vm_compute; reflexivity).
  split; [exact Hset|].
  destruct (reinit_resets_contents _ _ "k" "v" [] 1000 0 0 Hset)
    as (p1 & s2 & p & _ & _ & H2 & _ & _ & H3).
  exists s2. split; [exact H2 | exact (H3 "k")].
Defined.

(** C6, as stated, fails: on an initialized instance [set] returns [false],
    with no error and with the entry stored, when the entry it has just
    written expires before its own read-back.  An expiration of
    20211507185753197 seconds is 512 nanoseconds after the 64-bit product,
    and the read-back comes 513 nanoseconds after the write; so does an
    expiration of one second when the call is held up for longer than
    that. *)
Lemma set_returns_false_when_entry_expires_before_read_back :
  reachable (state_after 0 [init 5 10])
  /\ is_Some (c_cache (state_after 0 [init 5 10]))
  /\ time.seconds 20211507185753197 = 512
  /\ (exists s' p',
        Cache_Set "k" "v" [20211507185753197] 513 (state_after 0 [init 5 10])
        = Returned (false, None) s'
        /\ c_cache s' = Some p'
        /\ gocache.items p' !! "k"
           = Some {| gocache.Object := any_string "v";
                     gocache.Expiration := 512 |})
  /\ (exists s',
        Cache_Set "k" "v" [1] 1000000001 (state_after 0 [init 5 10])
        = Returned (false, None) s').
Proof.
  split; [exists 0, [init 5 10]; reflexivity|].
  split; [eexists; reflexivity|].
  split; [vm_compute; reflexivity|].
  split.
  - do 2 eexists. split; [vm_compute; reflexivity|].
    split; [reflexivity|]. vm_compute. reflexivity.
  - eexists. vm_compute. reflexivity.
Qed.

(** C6, amended.  On an initialized instance [set] never returns an error
    and always stores the entry; the flag it returns is the result of its
    own read-back: [true] exactly when the entry just written has not
    expired at the second reading of the clock.  That is so whenever the
    entry has no deadline (the duration, after the default has been put in
    for zero, is not positive: zero and negative expirations with no positive
    default), whenever the two readings coincide, and, for a positive
    duration with the clock within 64 bits, exactly when no more than the
    duration passes between write and read-back.  [set] returns an error
    only on an instance that is not initialized, and then with [false] and
    the state untouched. *)
Theorem set_reports_its_read_back s k v (expiration : list Z) (elapsed : Z) :
  reachable s ->
  (c_cache s = None ->
   Cache_Set k v expiration elapsed s
   = Returned (false, Some ErrNotInitialized) s)
  /\ (forall p,
        c_cache s = Some p ->
        exists found s' p',
          Cache_Set k v expiration elapsed s = Returned (found, None) s'
          /\ c_cache s' = Some p'
          /\ gocache.items p' !! k
             = Some {| gocache.Object := any_string v;
                       gocache.Expiration :=
                         gocache.deadline p (exp_of expiration) (clock s) |}
          /\ found
             = negb (gocache.expired
                       (time.UnixNano (clock s + Z.max 0 elapsed))
                       {| gocache.Object := any_string v;
                          gocache.Expiration :=
                            gocache.deadline p (exp_of expiration) (clock s) |})
          /\ (gocache.effective_duration p (exp_of expiration) <= 0 ->
              found = true)
          /\ (Z.max 0 elapsed = 0 -> found = true)
          /\ (0 < gocache.effective_duration p (exp_of expiration) ->
              0 <= clock s ->
              clock s + gocache.effective_duration p (exp_of expiration) < 2 ^ 63 ->
              0 <= elapsed -> clock s + elapsed < 2 ^ 63 ->
              found
              = (elapsed <=? gocache.effective_duration p (exp_of expiration))))
  /\ (forall r s',
        Cache_Set k v expiration elapsed s = Returned r s' ->
        r.2 <> None ->
        c_cache s = None /\ r = (false, Some ErrNotInitialized) /\ s' = s).
Proof.
  intros Hreach. split; [apply Cache_Set_nil|]. split.
  - intros p Hp.
    pose proof (wt_default p (reachable_invariant s Hreach p Hp)) as Hd.
    do 3 eexists.
    split; [apply (Cache_Set_found s p k v expiration elapsed Hp)|].
    split; [reflexivity|]. split; [apply lookup_Set_|].
    split; [reflexivity|]. split; [|split].
    + intros Httl. rewrite (deadline_none p expiration (clock s) Httl).
      reflexivity.
    + intros He. rewrite He, Z.add_0_r.
      rewrite written_entry_live by exact Hd. reflexivity.
    + intros Httl Ht Hsum He Hte. unfold gocache.deadline.
      destruct (Z.ltb_spec 0 (gocache.effective_duration p (exp_of expiration)));
        [|lia].
      rewrite Z.max_r by lia. rewrite expired_iff_elapsed by lia.
      apply negb_ltb.
  - intros r s' Hset Herr. destruct (c_cache s) as [p|] eqn:Hp.
    + rewrite (Cache_Set_found s p k v expiration elapsed Hp) in Hset.
      injection Hset as <- _. contradiction Herr. reflexivity.
    + rewrite (Cache_Set_nil s k v expiration elapsed Hp) in Hset.
      injection Hset as <- <-. auto.
Qed.

Lemma set_reports_its_read_back_witness :
  let s := state_after 0 [init 5 10] in
  let p := {| gocache.defaultExpiration := 5000000000;
              gocache.items := ∅;
              gocache.janitor_of := Some {| gocache.Interval := 10000000000 |} |} in
  reachable s
  /\ c_cache s = Some p
  /\ exists found s',
       Cache_Set "k" "v" [-1] 1000 s = Returned (found, None) s'
       /\ found = true.
Proof.
  intros s p.
  assert (Hr : reachable s) by (exists 0, [init 5 10]; reflexivity).
  assert (Hp : c_cache s = Some p) by reflexivity.
  split; [exact Hr|]. split; [exact Hp|].
  destruct (proj1 (proj2 (set_reports_its_read_back s "k" "v" [-1] 1000 Hr)) p Hp)
    as (found & s' & p' & H1 & _ & _ & _ & H2 & _).
  exists found, s'. split; [exact H1|].
  apply H2. vm_compute. discriminate.
Defined.

(** C7. Whatever calls came before (any sequence of [init], [set], [get],
    [flush] and events, so also several [set]s on distinct keys), on an
    initialized instance [flush] returns no error and leaves the store
    empty: [get] of every key, the ones set before among them, returns the
    nil interface and no error.  [flush] returns an error only on an
    instance that is not initialized. *)
Theorem flush_clears_everything (t : Z) (l : list call) :
  exists s,
    run l (new_Cache t) = Returned tt s
    /\ (is_Some (c_cache s) ->
        exists s' p',
          Cache_Flush s = Returned None s'
          /\ c_cache s' = Some p' /\ gocache.items p' = ∅
          /\ forall k, Cache_Get k s' = Returned (any_nil, None) s')
    /\ (forall e s',
          Cache_Flush s = Returned (Some e) s' ->
          c_cache s = None /\ e = ErrNotInitialized /\ s' = s).
Proof.
  destruct (reachable_returns l t) as (s & Hrun & _ & _).
  exists s. split; [exact Hrun|]. split.
  - intros [p Hp]. exists (with_cache s (gocache.Flush p)), (gocache.Flush p).
    split; [apply Cache_Flush_some, Hp|].
    split; [reflexivity|]. split; [reflexivity|].
    intros k. rewrite (Cache_Get_some (with_cache s _) _ k eq_refl).
    rewrite Get_Flush. reflexivity.
  - intros e s' Hflush. destruct (c_cache s) as [p|] eqn:Hp.
    + rewrite (Cache_Flush_some s p Hp) in Hflush. discriminate.
    + rewrite (Cache_Flush_nil s Hp) in Hflush.
      injection Hflush as <- <-. auto.
Qed.

(** C8. A stored empty string is told apart from a key not found.  On an
    initialized instance, after [set(k, "")], a [get(k)] made while the
    entry has not expired returns the empty string itself, which is not the
    nil interface; the nil interface is what [get] returns, in any state,
    for a key that is absent or expired. *)
Theorem empty_string_is_not_not_found s p k (expiration : list Z) (elapsed d : Z) :
  c_cache s = Some p ->
  gocache.expired (time.UnixNano (clock s + Z.max 0 elapsed + Z.max 0 d))
    {| gocache.Object := any_string "";
       gocache.Expiration := gocache.deadline p (exp_of expiration) (clock s) |}
  = false ->
  (exists found s1 s2,
      Cache_Set k "" expiration elapsed s = Returned (found, None) s1
      /\ time_Sleep d s1 = Returned tt s2
      /\ Cache_Get k s2 = Returned (any_string "", None) s2)
  /\ (forall s' q,
        c_cache s' = Some q ->
        gocache.items q !! k = None
        \/ (exists item, gocache.items q !! k = Some item
                         /\ gocache.expired (time.UnixNano (clock s')) item = true) ->
        Cache_Get k s' = Returned (any_nil, None) s')
  /\ any_string "" <> any_nil.
Proof.
  intros Hp Hlive. split; [|split; [|discriminate]].
  - destruct (Cache_Get_after_Set s p k "" expiration elapsed d Hp)
      as (Hset & Hsleep & Hget).
    do 3 eexists. split; [exact Hset|]. split; [exact Hsleep|].
    rewrite Hget, Hlive. reflexivity.
  - intros s' q Hq Hk. rewrite (Cache_Get_some s' q k Hq).
    destruct Hk as [Hk | (item & Hk & He)].
    + rewrite Get_absent by assumption. reflexivity.
    + rewrite (Get_expired k (clock s') q item Hk He). reflexivity.
Qed.

Lemma empty_string_is_not_not_found_witness :
  let s := state_after 0 [init 5 10] in
  let p := {| gocache.defaultExpiration := 5000000000;
              gocache.items := ∅;
              gocache.janitor_of := Some {| gocache.Interval := 10000000000 |} |} in
  c_cache s = Some p
  /\ gocache.expired (time.UnixNano (clock s + Z.max 0 1000 + Z.max 0 4000000000))
       {| gocache.Object := any_string "";
          gocache.Expiration := gocache.deadline p (exp_of []) (clock s) |}
     = false
  /\ (exists found s1 s2,
        Cache_Set "k" "" [] 1000 s = Returned (found, None) s1
        /\ time_Sleep 4000000000 s1 = Returned tt s2
        /\ Cache_Get "k" s2 = Returned (any_string "", None) s2)
  /\ Cache_Get "k" s = Returned (any_nil, None) s.
Proof.
  intros s p.
  assert (Hp : c_cache s = Some p) by reflexivity.
  assert (Hlive : gocache.expired
                    (time.UnixNano (clock s + Z.max 0 1000 + Z.max 0 4000000000))
                    {| gocache.Object := any_string "";
                       gocache.Expiration :=
                         gocache.deadline p (exp_of []) (clock s) |}
                  = false) by (vm_compute; reflexivity).
  split; [exact Hp|]. split; [exact Hlive|].
  destruct (empty_string_is_not_not_found s p "k" [] 1000 4000000000 Hp Hlive)
    as (H1 & H2 & _).
  split; [exact H1|].
  apply (H2 s p Hp). left. reflexivity.
Defined.

(** C9. No sequence of calls makes a method panic: every call returns.
    Every value in the store is a string, put there by [set], so the type
    assertion in [get] holds whenever it is reached. *)
Theorem no_operation_panics (t : Z) (l : list call) :
  exists s,
    run l (new_Cache t) = Returned tt s
    /\ (forall p k item,
          c_cache s = Some p -> gocache.items p !! k = Some item ->
          exists v, gocache.Object item = any_string v)
    /\ (forall c, exists s', exec c s = Returned tt s')
    /\ (forall id, exists r, Cache_Get id s = Returned r s).
Proof.
  destruct (reachable_returns l t) as (s & Hrun & _ & Hinv).
  exists s. split; [exact Hrun|]. split; [|split].
  - intros p k item Hp. apply (wt_objects p (Hinv p Hp)).
  - intros c. destruct (exec_returns c s Hinv) as (s' & Hs' & _). eauto.
  - intros id. destruct (Cache_Get_returns s id Hinv) as (x & [H|H]); eauto.
Qed.

(** C10, as stated, fails: [init] on an initialized instance whose store
    has a janitor leaves that janitor running next to the new one, and the
    old janitor's next sweep still deletes from the discarded store. *)
Lemma reinit_keeps_previous_janitor_running :
  reachable (state_after 0 [init 5 10; set "k" "v" [1] 0])
  /\ is_Some (c_cache (state_after 0 [init 5 10; set "k" "v" [1] 0]))
  /\ exists s1 s2 s3 old,
       Cache_Init 5 10 (state_after 0 [init 5 10; set "k" "v" [1] 0])
       = Returned tt s1
       /\ running_janitors s1
          = [ {| gocache.Interval := 10000000000 |};
              {| gocache.Interval := 10000000000 |} ]
       /\ time_Sleep 10000000000 s1 = Returned tt s2
       /\ discarded s2 = [old]
       /\ gocache.items old
          = {[ "k" := {| gocache.Object := any_string "v";
                         gocache.Expiration := 1000000000 |} ]}
       /\ stale_janitor_tick 0 s2 = Returned tt s3
       /\ discarded s3
          = [ {| gocache.defaultExpiration := gocache.defaultExpiration old;
                 gocache.items := ∅;
                 gocache.janitor_of := gocache.janitor_of old |} ].
Proof.
  split; [exists 0, [init 5 10; set "k" "v" [1] 0]; reflexivity|].
  split; [eexists; reflexivity|].
  do 4 eexists. repeat split; vm_compute; reflexivity.
Qed.

(** C10, amended. [init] on an initialized instance stops no janitor.  It
    puts a fresh, empty store in place of the old one and starts a janitor
    for it exactly when the cleanup interval is positive; the old store,
    with its janitor if it has one, stays behind until the runtime
    finalizes it.  The janitors running afterwards are the new one and all
    those that ran before.  A sweep of a stale janitor changes only its own
    discarded store, never the live one; once the discarded stores are
    finalized, only the live store's janitor is left. *)
Theorem init_does_not_stop_previous_janitor s old (de ci : Z) :
  c_cache s = Some old ->
  exists p s',
    Cache_Init de ci s = Returned tt s'
    /\ c_cache s' = Some p
    /\ gocache.items p = ∅
    /\ gocache.janitor_of p
       = (if 0 <? time.seconds ci
          then Some {| gocache.Interval := time.seconds ci |} else None)
    /\ discarded s' = old :: discarded s
    /\ running_janitors s'
       = option_list (gocache.janitor_of p) ++ running_janitors s
    /\ (forall i s'',
          stale_janitor_tick i s' = Returned tt s'' ->
          c_cache s'' = Some p /\ clock s'' = clock s')
    /\ exists s'',
         finalize s' = Returned tt s''
         /\ c_cache s'' = Some p
         /\ running_janitors s'' = option_list (gocache.janitor_of p).
Proof.
  intros Hold.
  destruct (Cache_Init_returns s de ci) as (p & Hnew & Hinit).
  destruct (New_returns (time.seconds de) (time.seconds ci))
    as (p' & Hp' & Hitems & _ & Hjan).
  rewrite Hnew in Hp'. injection Hp' as <-.
  rewrite Hold in Hinit.
  exists p. eexists. split; [exact Hinit|].
  split; [reflexivity|]. split; [exact Hitems|]. split; [exact Hjan|].
  split; [reflexivity|].
  split.
  { unfold running_janitors. cbn [c_cache discarded]. rewrite Hold. cbn.
    destruct (gocache.janitor_of p); reflexivity. }
  split.
  { intros i s'' [= <-]. split; reflexivity. }
  eexists. split; [reflexivity|]. split; [reflexivity|].
  unfold running_janitors. cbn.
  destruct (gocache.janitor_of p); reflexivity.
Qed.

Lemma init_does_not_stop_previous_janitor_witness :
  let old := {| gocache.defaultExpiration := 5000000000;
                gocache.items := ∅;
                gocache.janitor_of := Some {| gocache.Interval := 10000000000 |} |} in
  c_cache (state_after 0 [init 5 10]) = Some old
  /\ exists p s',
       Cache_Init 1 1 (state_after 0 [init 5 10]) = Returned tt s'
       /\ c_cache s' = Some p
       /\ discarded s' = [old]
       /\ running_janitors s'
          = option_list (gocache.janitor_of p)
            ++ [ {| gocache.Interval := 10000000000 |} ].
Proof.
  intros old.
  assert (Hold : c_cache (state_after 0 [init 5 10]) = Some old) by reflexivity.
  split; [exact Hold|].
  destruct (init_does_not_stop_previous_janitor _ old 1 1 Hold)
    as (p & s' & H1 & H2 & _ & _ & H3 & H4 & _).
  exists p, s'. repeat split; assumption.
Defined.

End properties.

(** * Further properties of the methods *)

Section more_properties.
Import memory.
Implicit Types (s : State) (p : gocache.Cache) (k v : string).

(** X1. On an initialized instance [set] of one key changes nothing for any
    other key: whatever [get] of the other key would have returned had the
    time of the call simply passed, at once or any time later, it still
    returns. *)
Theorem set_leaves_other_keys s p k k' v (expiration : list Z) (elapsed d : Z) :
  c_cache s = Some p -> k <> k' ->
  exists r s1 s2 s0 s2',
    Cache_Set k v expiration elapsed s = Returned r s1
    /\ time_Sleep d s1 = Returned tt s2
    /\ time_Sleep elapsed s = Returned tt s0
    /\ time_Sleep d s0 = Returned tt s2'
    /\ returned (Cache_Get k' s2) = returned (Cache_Get k' s2').
Proof.
  intros Hp Hne. do 5 eexists.
  split; [apply (Cache_Set_some s p k v expiration elapsed Hp)|].
  split; [reflexivity|]. split; [reflexivity|]. split; [reflexivity|].
  erewrite (Cache_Get_some _ _ k') by reflexivity.
  erewrite (Cache_Get_some _ p k') by exact Hp.
  cbn [clock]. unfold gocache.Get. rewrite items_Set_.
  rewrite lookup_insert_ne by assumption.
  destruct (gocache.items p !! k') as [item|]; [|reflexivity].
  destruct (gocache.expired _ item); [reflexivity|].
  destruct (assert_string (gocache.Object item)); reflexivity.
Qed.

Lemma set_leaves_other_keys_witness :
  let s := state_after 0 [init 5 10; set "key2" "value2" [] 1000] in
  let p := {| gocache.defaultExpiration := 5000000000;
              gocache.items :=
                {[ "key2" := {| gocache.Object := any_string "value2";
                                gocache.Expiration := 5000000000 |} ]};
              gocache.janitor_of := Some {| gocache.Interval := 10000000000 |} |} in
  c_cache s = Some p
  /\ "key1" <> "key2"
  /\ exists r s1 s2 s0 s2',
       Cache_Set "key1" "value1" [] 1000 s = Returned r s1
       /\ time_Sleep 1 s1 = Returned tt s2
       /\ time_Sleep 1000 s = Returned tt s0
       /\ time_Sleep 1 s0 = Returned tt s2'
       /\ returned (Cache_Get "key2" s2) = returned (Cache_Get "key2" s2').
Proof.
  intros s p.
  assert (Hp : c_cache s = Some p) by reflexivity.
  assert (Hne : "key1" <> "key2") by discriminate.
  split; [exact Hp|]. split; [exact Hne|].
  exact (set_leaves_other_keys s p "key1" "key2" "value1" [] 1000 1 Hp Hne).
Defined.



(** X3. An expiration argument of [n] seconds, positive and with the clock
    staying within 64 bits, keeps the entry for exactly [n] seconds from the
    first clock reading of the [set]: [set] returns [true] when its
    read-back comes no later than that, and [get] returns the value up to
    and at [n] seconds, and the nil interface from then on. *)
Theorem explicit_expiration_boundary s p k v (n elapsed d : Z) :
  c_cache s = Some p ->
  0 < n -> 0 <= clock s -> clock s + n * time.Second < 2 ^ 63 ->
  0 <= elapsed -> 0 <= d -> clock s + elapsed + d < 2 ^ 63 ->
  exists s1 s2,
    Cache_Set k v [n] elapsed s
    = Returned (elapsed <=? n * time.Second, None) s1
    /\ time_Sleep d s1 = Returned tt s2
    /\ Cache_Get k s2
       = Returned (if elapsed + d <=? n * time.Second
                   then any_string v else any_nil, None) s2.
Proof.
  intros Hp Hn Ht Hsum He Hd Htd.
  assert (Hsec : time.seconds n = n * time.Second).
  { unfold time.seconds. apply wrap64_small. unfold int64, time.Second in *. lia. }
  assert (Heff : gocache.effective_duration p (exp_of [n]) = n * time.Second).
  { rewrite effective_explicit; [exact Hsec|]. rewrite Hsec. unfold time.Second. lia. }
  pose proof (ttl_boundary s p k v [n] elapsed d Hp) as H. rewrite Heff in H.
  apply H; try assumption. unfold time.Second. lia.
Qed.

Lemma explicit_expiration_boundary_witness :
  let s := state_after 0 [init 60 120] in
  let p := {| gocache.defaultExpiration := 60000000000;
              gocache.items := ∅;
              gocache.janitor_of := Some {| gocache.Interval := 120000000000 |} |} in
  (c_cache s = Some p /\ 0 < 30 /\ 0 <= clock s
   /\ clock s + 30 * time.Second < 2 ^ 63
   /\ 0 <= 0 /\ 0 <= 30000000001 /\ clock s + 0 + 30000000001 < 2 ^ 63)
  /\ exists s1 s2,
       Cache_Set "url" "body" [30] 0 s = Returned (true, None) s1
       /\ time_Sleep 30000000001 s1 = Returned tt s2
       /\ Cache_Get "url" s2 = Returned (any_nil, None) s2.
Proof.
  intros s p.
  assert (Hp : c_cache s = Some p) by reflexivity.
  assert (H1 : 0 < 30) by lia.
  assert (H2 : 0 <= clock s) by (vm_compute; discriminate).
  assert (H3 : clock s + 30 * time.Second < 2 ^ 63) by (vm_compute; reflexivity).
  assert (H4 : 0 <= 0) by lia.
  assert (H5 : 0 <= 30000000001) by lia.
  assert (H6 : clock s + 0 + 30000000001 < 2 ^ 63) by (vm_compute; reflexivity).
  split; [repeat split; assumption|].
  exact (explicit_expiration_boundary s p "url" "body" 30 0 30000000001
           Hp H1 H2 H3 H4 H5 H6).
Defined.

(** X4. After [init(n, ci)] with [n] positive, a [set] without expiration
    argument keeps its entry for exactly [n] seconds (the clock staying
    within 64 bits): the default given to [init] is the one applied. *)
Theorem default_expiration_boundary s k v (n ci elapsed d : Z) :
  0 < n -> 0 <= clock s -> clock s + n * time.Second < 2 ^ 63 ->
  0 <= elapsed -> 0 <= d -> clock s + elapsed + d < 2 ^ 63 ->
  exists s0 s1 s2,
    Cache_Init n ci s = Returned tt s0
    /\ Cache_Set k v [] elapsed s0
       = Returned (elapsed <=? n * time.Second, None) s1
    /\ time_Sleep d s1 = Returned tt s2
    /\ Cache_Get k s2
       = Returned (if elapsed + d <=? n * time.Second
                   then any_string v else any_nil, None) s2.
Proof.
  intros Hn Ht Hsum He Hd Htd.
  assert (Hsec : time.seconds n = n * time.Second).
  { unfold time.seconds. apply wrap64_small. unfold int64, time.Second in *. lia. }
  destruct (Cache_Init_returns s n ci) as (p & Hnew & Hinit).
  destruct (New_returns (time.seconds n) (time.seconds ci))
    as (p' & Hp' & _ & Hdef & _).
  rewrite Hnew in Hp'. injection Hp' as <-.
  assert (Hdef' : gocache.defaultExpiration p = n * time.Second).
  { rewrite Hdef, Hsec.
    destruct (Z.eqb_spec (n * time.Second) 0) as [E|_]; [|reflexivity].
    unfold time.Second in E. lia. }
  set (s0 := {| clock := clock s; c_cache := Some p;
                discarded := match c_cache s with
                             | Some old => old :: discarded s
                             | None => discarded s
                             end |}) in *.
  pose proof (ttl_boundary s0 p k v [] elapsed d eq_refl) as H.
  rewrite effective_default, Hdef' in H. cbn [clock s0] in H.
  destruct H as (s1 & s2 & H1 & H2 & H3); try assumption.
  { unfold time.Second. lia. }
  exists s0, s1, s2. split; [exact Hinit|]. repeat split; assumption.
Qed.

Lemma default_expiration_boundary_witness :
  (0 < 1 /\ 0 <= clock (new_Cache 0)
   /\ clock (new_Cache 0) + 1 * time.Second < 2 ^ 63
   /\ 0 <= 0 /\ 0 <= 2000000000
   /\ clock (new_Cache 0) + 0 + 2000000000 < 2 ^ 63)
  /\ exists s0 s1 s2,
       Cache_Init 1 1 (new_Cache 0) = Returned tt s0
       /\ Cache_Set "expiringKey" "expiringValue" [] 0 s0 = Returned (true, None) s1
       /\ time_Sleep 2000000000 s1 = Returned tt s2
       /\ Cache_Get "expiringKey" s2 = Returned (any_nil, None) s2.
Proof.
  assert (H1 : 0 < 1) by lia.
  assert (H2 : 0 <= clock (new_Cache 0)) by (vm_compute; discriminate).
  assert (H3 : clock (new_Cache 0) + 1 * time.Second < 2 ^ 63)
    by (vm_compute; reflexivity).
  assert (H4 : 0 <= 0) by lia.
  assert (H5 : 0 <= 2000000000) by lia.
  assert (H6 : clock (new_Cache 0) + 0 + 2000000000 < 2 ^ 63)
    by (vm_compute; reflexivity).
  split; [repeat split; assumption|].
  exact (default_expiration_boundary (new_Cache 0) "expiringKey" "expiringValue"
           1 1 0 2000000000 H1 H2 H3 H4 H5 H6).
Defined.

(** X5. An expiration argument whose duration in nanoseconds is negative
    after the 64-bit product, be it a negative number of seconds or one so
    large that the product wraps around, gives an entry that never expires:
    [set] returns [true] however long it takes, and [get] returns the value
    however much later. *)
Theorem negative_expiration_never_expires s p k v (n elapsed d : Z) :
  c_cache s = Some p -> time.seconds n < 0 ->
  exists s1 s2,
    Cache_Set k v [n] elapsed s = Returned (true, None) s1
    /\ time_Sleep d s1 = Returned tt s2
    /\ Cache_Get k s2 = Returned (any_string v, None) s2.
Proof.
  intros Hp Hn. apply (no_deadline s p k v [n] elapsed d Hp).
  rewrite effective_explicit by lia. lia.
Qed.

Lemma negative_expiration_never_expires_witness :
  let s := state_after 0 [init 5 10] in
  let p := {| gocache.defaultExpiration := 5000000000;
              gocache.items := ∅;
              gocache.janitor_of := Some {| gocache.Interval := 10000000000 |} |} in
  (c_cache s = Some p /\ time.seconds (-1) < 0 /\ time.seconds 9223372037 < 0)
  /\ (exists s1 s2,
         Cache_Set "k" "v" [-1] 1000 s = Returned (true, None) s1
         /\ time_Sleep (3600 * time.Second) s1 = Returned tt s2
         /\ Cache_Get "k" s2 = Returned (any_string "v", None) s2)
  /\ (exists s1 s2,
         Cache_Set "k" "v" [9223372037] 1000 s = Returned (true, None) s1
         /\ time_Sleep (3600 * time.Second) s1 = Returned tt s2
         /\ Cache_Get "k" s2 = Returned (any_string "v", None) s2).
Proof.
  intros s p.
  assert (Hp : c_cache s = Some p) by reflexivity.
  assert (H1 : time.seconds (-1) < 0) by (vm_compute; reflexivity).
  assert (H2 : time.seconds 9223372037 < 0) by (vm_compute; reflexivity).
  split; [repeat split; assumption|]. split.
  - exact (negative_expiration_never_expires s p "k" "v" (-1) 1000 _ Hp H1).
  - exact (negative_expiration_never_expires s p "k" "v" 9223372037 1000 _ Hp H2).
Defined.

(** X6. After [init(0, ci)] a [set] without expiration argument gives an
    entry that never expires: a zero default means no expiry, not immediate
    expiry. *)
Theorem zero_default_never_expires s k v (ci elapsed d : Z) :
  exists s0 s1 s2,
    Cache_Init 0 ci s = Returned tt s0
    /\ Cache_Set k v [] elapsed s0 = Returned (true, None) s1
    /\ time_Sleep d s1 = Returned tt s2
    /\ Cache_Get k s2 = Returned (any_string v, None) s2.
Proof.
  destruct (Cache_Init_returns s 0 ci) as (p & Hnew & Hinit).
  destruct (New_returns (time.seconds 0) (time.seconds ci))
    as (p' & Hp' & _ & Hdef & _).
  rewrite Hnew in Hp'. injection Hp' as <-.
  assert (Hdef' : gocache.defaultExpiration p = -1) by exact Hdef.
  eexists.
  destruct (no_deadline {| clock := clock s; c_cache := Some p;
                           discarded := match c_cache s with
                                        | Some old => old :: discarded s
                                        | None => discarded s
                                        end |} p k v [] elapsed d eq_refl)
    as (s1 & s2 & H1 & H2 & H3).
  { rewrite effective_default, Hdef'. lia. }
  exists s1, s2. split; [exact Hinit|]. repeat split; assumption.
Qed.

(** X7. [set] reads only the first of its expiration arguments, and an
    expiration of 0 seconds is the same as none: the call does exactly what
    the call without expiration argument does, so the default applies. *)
Theorem zero_expiration_is_default s k v (e : Z) (rest : list Z) (elapsed : Z) :
  Cache_Set k v (e :: rest) elapsed s = Cache_Set k v [e] elapsed s
  /\ Cache_Set k v (0 :: rest) elapsed s = Cache_Set k v [] elapsed s.
Proof.
  split; [reflexivity|].
  assert (H0 : time.seconds 0 = gocache.DefaultExpiration)
    by (vm_compute; reflexivity).
  destruct (c_cache s) as [p|] eqn:Hp.
  - rewrite (Cache_Set_some s p k v (0 :: rest) elapsed Hp),
      (Cache_Set_some s p k v [] elapsed Hp).
    cbn [exp_of]. rewrite H0. reflexivity.
  - rewrite !Cache_Set_nil by assumption. reflexivity.
Qed.

(** X8. On an initialized instance [flush] returns no error and empties the
    store without touching its configuration: the default expiration and the
    janitor are the ones [init] set up, no store is discarded and no janitor
    is started or stopped.  The instance stays initialized: a [set] that
    follows returns no error and stores its entry, with the deadline that
    the same default gives. *)
Theorem flush_keeps_configuration s p k v (expiration : list Z) (elapsed : Z) :
  c_cache s = Some p ->
  exists s1 p1 found s2 p2,
    Cache_Flush s = Returned None s1
    /\ c_cache s1 = Some p1
    /\ gocache.items p1 = ∅
    /\ gocache.defaultExpiration p1 = gocache.defaultExpiration p
    /\ gocache.janitor_of p1 = gocache.janitor_of p
    /\ discarded s1 = discarded s
    /\ running_janitors s1 = running_janitors s
    /\ clock s1 = clock s
    /\ Cache_Set k v expiration elapsed s1 = Returned (found, None) s2
    /\ c_cache s2 = Some p2
    /\ gocache.items p2
       = {[ k := {| gocache.Object := any_string v;
                    gocache.Expiration :=
                      gocache.deadline p (exp_of expiration) (clock s) |} ]}.
Proof.
  intros Hp.
  exists (with_cache s (gocache.Flush p)), (gocache.Flush p). do 3 eexists.
  split; [apply Cache_Flush_some, Hp|].
  do 5 (split; [reflexivity|]).
  split; [unfold running_janitors; cbn; rewrite Hp; reflexivity|].
  split; [reflexivity|].
  split; [apply (Cache_Set_found _ (gocache.Flush p)); reflexivity|].
  split; [reflexivity|].
  rewrite items_Set_. reflexivity.
Qed.

Lemma flush_keeps_configuration_witness :
  let s := state_after 0 [init 5 10; set "key1" "value1" [] 0] in
  let p := {| gocache.defaultExpiration := 5000000000;
              gocache.items :=
                {[ "key1" := {| gocache.Object := any_string "value1";
                                gocache.Expiration := 5000000000 |} ]};
              gocache.janitor_of := Some {| gocache.Interval := 10000000000 |} |} in
  c_cache s = Some p
  /\ exists s1 p1,
       Cache_Flush s = Returned None s1
       /\ c_cache s1 = Some p1
       /\ gocache.items p1 = ∅
       /\ gocache.defaultExpiration p1 = 5000000000.
Proof.
  intros s p.
  assert (Hp : c_cache s = Some p) by reflexivity.
  split; [exact Hp|].
  destruct (flush_keeps_configuration s p "key1" "value1" [] 1000 Hp)
    as (s1 & p1 & _ & _ & _ & H1 & H2 & H3 & H4 & _).
  exists s1, p1. repeat split; assumption.
Defined.

(** X9. [init] never fails, whatever its two arguments and whatever state
    it is called in: it returns with the instance initialized on an empty
    store, with a janitor exactly when the cleanup interval, in nanoseconds
    after the 64-bit product, is positive.  Afterwards [get] of any key
    returns the nil interface and no error. *)
Theorem init_gives_empty_store s (de ci : Z) :
  exists s' p,
    Cache_Init de ci s = Returned tt s'
    /\ c_cache s' = Some p
    /\ clock s' = clock s
    /\ gocache.items p = ∅
    /\ (is_Some (gocache.janitor_of p) <-> 0 < time.seconds ci)
    /\ forall k', Cache_Get k' s' = Returned (any_nil, None) s'.
Proof.
  destruct (Cache_Init_returns s de ci) as (p & Hnew & Hinit).
  destruct (New_returns (time.seconds de) (time.seconds ci))
    as (p' & Hp' & Hitems & _ & Hjan).
  rewrite Hnew in Hp'. injection Hp' as <-.
  eexists. exists p. split; [exact Hinit|].
  split; [reflexivity|]. split; [reflexivity|]. split; [exact Hitems|].
  split.
  - rewrite Hjan. destruct (Z.ltb_spec 0 (time.seconds ci)).
    + split; [intros _; assumption | intros _; eexists; reflexivity].
    + split; [intros [? [=]] | lia].
  - intros k'. erewrite Cache_Get_some by reflexivity.
    rewrite Get_absent by (rewrite Hitems; apply lookup_empty). reflexivity.
Qed.

End more_properties.

(** * The k6 module: one instance for all virtual users *)

Section module_instances.
Import k6.
Implicit Types (w : Process) (l : list op).

Lemma New_again w : once_done w = true -> New w = Done new_rootModule w.
Proof.
  intros H. unfold New, mbind, W_bind, bind, once_Do. rewrite H. reflexivity.
Qed.

Lemma register_start t :
  register (start t)
  = Done (memory.ImportPath, new_rootModule)
      {| once_done := true; globalCacheInstance := Some 0%nat;
         heap := [None]; now := t; garbage := [] |}.
Proof. reflexivity. Qed.

Lemma singleton_registered t :
  singleton {| once_done := true; globalCacheInstance := Some 0%nat;
               heap := [None]; now := t; garbage := [] |}.
Proof.
  split; [reflexivity | reflexivity |].
  exists None. split; [reflexivity | discriminate].
Qed.

(** A method called through the one pointer runs on the one [Cache]. *)
Lemma on_Cache_single {A} (m : memory.M A) w c :
  heap w = [c] ->
  on_Cache (Some 0%nat) m w
  = match m {| memory.clock := now w; memory.c_cache := c;
               memory.discarded := garbage w |} with
    | memory.Returned r s' =>
        Done r {| once_done := once_done w;
                  globalCacheInstance := globalCacheInstance w;
                  heap := [memory.c_cache s'];
                  now := memory.clock s';
                  garbage := memory.discarded s' |}
    | memory.Panicked msg => Panic msg
    end.
Proof.
  intros H. unfold on_Cache, view, commit. rewrite H. cbn.
  destruct (m _); reflexivity.
Qed.

Lemma step_singleton o w :
  singleton w -> exists w', step o w = Done tt w' /\ singleton w'.
Proof.
  intros [Honce Hg (c & Hheap & Hwt)]. destruct o as [|call]; cbn [step].
  - unfold mbind, W_bind, bind. rewrite New_again by assumption.
    exists w. split; [reflexivity|]. split; eauto.
  - unfold mbind, W_bind, bind. rewrite Hg.
    rewrite (on_Cache_single _ w c Hheap).
    destruct (exec_returns call
                {| memory.clock := now w; memory.c_cache := c;
                   memory.discarded := garbage w |}) as (s' & Hexec & Hinv).
    { intros p Hp. apply Hwt. exact Hp. }
    rewrite Hexec. eexists. split; [reflexivity|].
    split; [exact Honce | exact Hg |].
    exists (memory.c_cache s'). split; [reflexivity|]. exact Hinv.
Qed.

Lemma steps_singleton l w :
  singleton w -> exists w', steps l w = Done tt w' /\ singleton w'.
Proof.
  revert w. induction l as [|o l IH]; intros w Hw.
  - exists w. split; [reflexivity | assumption].
  - destruct (step_singleton o w Hw) as (w1 & Hstep & Hw1).
    destruct (IH w1 Hw1) as (w2 & Hsteps & Hw2).
    exists w2. split; [|assumption].
    cbn [steps]. unfold mbind, W_bind, bind. rewrite Hstep. exact Hsteps.
Qed.

(** X10. Once the package is registered, whatever calls of [New] and of the
    four methods follow, no call panics, the process holds exactly one
    [Cache], [globalCacheInstance] points to it, and a further [New] leaves
    the process, so also the contents of the cache, as it is. *)
Theorem one_cache_per_process (t : Z) l :
  exists w0 w c,
    register (start t) = Done (memory.ImportPath, new_rootModule) w0
    /\ steps l w0 = Done tt w
    /\ once_done w = true
    /\ globalCacheInstance w = Some 0%nat
    /\ heap w = [c]
    /\ New w = Done new_rootModule w.
Proof.
  destruct (steps_singleton l _ (singleton_registered t))
    as (w & Hsteps & [Honce Hg (c & Hheap & _)]).
  eexists. exists w, c. split; [apply register_start|].
  split; [exact Hsteps|]. split; [exact Honce|]. split; [exact Hg|].
  split; [exact Hheap|]. apply New_again, Honce.
Qed.


End module_instances.
